(** * MediaWiki MCP: the remote-query client and its tool handlers

    A shallow embedding of [src/mediawiki-client.ts] (class
    [MediaWikiClient]) and of the handlers registered by
    [src/mediawiki-tools.ts], with the properties the specification states
    about them.

    Conventions of the embedding.
    - A JavaScript string is represented by the bytes of its UTF-8 form
      ([string]); this covers every well-formed string.  The string
      operations the code uses ([replace] on an ASCII pattern,
      [startsWith], [encodeURIComponent]) are modelled on those bytes.
    - The numbers the code computes with are byte counts, identifiers and
      list positions: integers ([Z]), on which JavaScript arithmetic is
      exact below 2^53.
    - A promise that rejects, or a [throw], is the [Throw] case of
      [Result]; [await] is the bind of that monad.
    - The reply of the remote service is the record [Api.Response]: every
      field the client reads through [?.] or [||] is optional, and the
      list items have the interfaces of [src/types.ts].  Replies of
      another shape are outside the embedding. *)

From Stdlib Require Import ZArith List Bool Ascii String Lia.
From Stdlib Require Import Numbers.DecimalString.
Import ListNotations.

Local Open Scope string_scope.
Local Open Scope Z_scope.

(* ================================================================== *)
(** ** The JavaScript runtime pieces the code relies on *)

Module JS.

(** What a rejected promise carries. *)
Inductive Exn : Type :=
| Error (message : string)      (* [new Error(message)] *)
| Foreign (tag : string).       (* any other thrown value, rethrown as it is *)

Inductive Result (A : Type) : Type :=
| Ok (value : A)
| Throw (e : Exn).
Arguments Ok {A} value.
Arguments Throw {A} e.

Definition bind {A B : Type} (m : Result A) (k : A -> Result B) : Result B :=
  match m with
  | Ok a => k a
  | Throw e => Throw e
  end.

(** [a || b] on strings: the empty string is falsy. *)
Definition orElse (a b : string) : string :=
  match a with
  | EmptyString => b
  | _ => a
  end.

(** [a?.f || b] where the left side may be [undefined]. *)
Definition optOr (a : option string) (b : string) : string :=
  match a with
  | Some s => orElse s b
  | None => b
  end.

(** Number-to-string conversion of an integer, as a template literal
    does it: decimal digits, a leading minus sign for negatives. *)
Definition numToString (n : Z) : string :=
  NilZero.string_of_int (Z.to_int n).

(** The double-quote character, for the quoted titles in messages. *)
Definition dq : string := String (ascii_of_nat 34) EmptyString.

(** Line feed, the [\n] of the templates. *)
Definition nl : string := String (ascii_of_nat 10) EmptyString.

(** [s.replace(/ /g, '_')]. *)
Fixpoint replaceSpaces (s : string) : string :=
  match s with
  | EmptyString => EmptyString
  | String c rest =>
      String (if Ascii.eqb c " "%char then "_"%char else c) (replaceSpaces rest)
  end.

(** [s.startsWith(p)]. *)
Fixpoint startsWith (p s : string) : bool :=
  match p with
  | EmptyString => true
  | String a p' =>
      match s with
      | EmptyString => false
      | String b s' => Ascii.eqb a b && startsWith p' s'
      end
  end.

(** [s.replace(/\/$/, '')]: one trailing slash is dropped. *)
Fixpoint stripTrailingSlash (s : string) : string :=
  match s with
  | EmptyString => EmptyString
  | String c rest =>
      match rest with
      | EmptyString => if Ascii.eqb c "/"%char then EmptyString else s
      | _ => String c (stripTrailingSlash rest)
      end
  end.

(** [s.toUpperCase()] on the ASCII letters [a] to [z].  The runtime
    also maps letters outside ASCII; the change kinds the remote service
    reports ([edit], [new], [log], [categorize], [external]) are ASCII
    words, and only those are meant here. *)
Definition upperChar (c : ascii) : ascii :=
  let n := nat_of_ascii c in
  if (97 <=? n)%nat && (n <=? 122)%nat then ascii_of_nat (n - 32) else c.

Fixpoint toUpperCase (s : string) : string :=
  match s with
  | EmptyString => EmptyString
  | String c rest => String (upperChar c) (toUpperCase rest)
  end.

(** *** The regular expression [/<[^>]*>/g]

    A match starts at a ["<"] exactly when a [">"] follows somewhere
    later ([[^>]] accepts every other character, line breaks included) and
    it ends at the first such [">"].  [replace(..., '')] scans left to
    right and drops every match. *)
Fixpoint contains (x : ascii) (s : string) : bool :=
  match s with
  | EmptyString => false
  | String c rest => Ascii.eqb c x || contains x rest
  end.

Fixpoint scanTags (inTag : bool) (s : string) : string :=
  match s with
  | EmptyString => EmptyString
  | String c rest =>
      if inTag then
        if Ascii.eqb c ">"%char then scanTags false rest else scanTags true rest
      else if Ascii.eqb c "<"%char && contains ">"%char rest
           then scanTags true rest
      else String c (scanTags false rest)
  end.

(** [s.replace(/<[^>]*>/g, '')]. *)
Definition stripTags (s : string) : string := scanTags false s.

(** *** [encodeURIComponent]

    Letters, digits and [- _ . ! ~ * ' ( )] are kept; every other byte
    of the UTF-8 form becomes [%XX] with upper-case hexadecimal digits.
    (On a string that is not well formed, a lone surrogate, the runtime
    raises [URIError]; such strings have no UTF-8 form and are not values
    of [string] here.) *)
Definition isAlphaNum (c : ascii) : bool :=
  let n := nat_of_ascii c in
  ((48 <=? n) && (n <=? 57) || (65 <=? n) && (n <=? 90)
   || (97 <=? n) && (n <=? 122))%nat.

Definition isMark (c : ascii) : bool :=
  existsb (Ascii.eqb c)
    ["-"; "_"; "."; "!"; "~"; "*"; "'"; "("; ")"]%char.

Definition uriUnreserved (c : ascii) : bool := isAlphaNum c || isMark c.

Definition hexDigit (n : nat) : ascii :=
  if (n <? 10)%nat then ascii_of_nat (48 + n) else ascii_of_nat (55 + n).

Definition escapeByte (c : ascii) : string :=
  let n := nat_of_ascii c in
  String "%"
    (String (hexDigit (n / 16)) (String (hexDigit (n mod 16)) EmptyString)).

Fixpoint encodeURIComponent (s : string) : string :=
  match s with
  | EmptyString => EmptyString
  | String c rest =>
      if uriUnreserved c then String c (encodeURIComponent rest)
      else escapeByte c ++ encodeURIComponent rest
  end.

(** Percent-decoding, the reverse reading the specification appeals to:
    [%XY] is the byte with hexadecimal digits [X] and [Y] (either case),
    every other character stands for itself, a stray [%] is an error. *)
Definition hexValue (c : ascii) : option nat :=
  let n := nat_of_ascii c in
  if ((48 <=? n) && (n <=? 57))%nat then Some (n - 48)%nat
  else if ((65 <=? n) && (n <=? 70))%nat then Some (n - 55)%nat
  else if ((97 <=? n) && (n <=? 102))%nat then Some (n - 87)%nat
  else None.

Fixpoint percentDecode (s : string) : option string :=
  match s with
  | EmptyString => Some EmptyString
  | String c rest =>
      if Ascii.eqb c "%"%char then
        match rest with
        | String h (String l rest') =>
            match hexValue h, hexValue l, percentDecode rest' with
            | Some a, Some b, Some t =>
                Some (String (ascii_of_nat (16 * a + b)) t)
            | _, _, _ => None
            end
        | _ => None
        end
      else option_map (String c) (percentDecode rest)
  end.

End JS.

Export JS.

Notation "x <- m ;; k" := (JS.bind m (fun x => k))
  (at level 61, m at next level, right associativity).

(* ================================================================== *)
(** ** [Date] and [toLocaleString]

    [formatTimestamp] hands its argument to [new Date(...)] and renders
    the date with [toLocaleString('en-US', ...)].  No [timeZone] option is
    passed, so the rendering is in the default time zone of the host, with
    the locale data of the host.  [Host] gathers what the runtime takes
    from its environment. *)

Module Date.

Record Host : Type := {
  (** offset of the host's default zone from UTC at an instant (given in
      milliseconds since the epoch), in minutes east of Greenwich *)
  localOffsetMinutes : Z -> Z;
  (** what [Date.parse] makes of a string that is not a UTC timestamp in
      the ISO form below (implementation-defined); [None] is NaN *)
  legacyParse : string -> option Z;
  (** the separator the locale data puts before AM/PM (a space, or a
      narrow no-break space with recent CLDR data) *)
  dayPeriodSeparator : string
}.

Definition digitValue (c : ascii) : option Z :=
  let n := nat_of_ascii c in
  if ((48 <=? n) && (n <=? 57))%nat then Some (Z.of_nat (n - 48)) else None.

Fixpoint digitsValue (acc : Z) (ds : list ascii) : option Z :=
  match ds with
  | [] => Some acc
  | d :: rest =>
      match digitValue d with
      | Some v => digitsValue (10 * acc + v) rest
      | None => None
      end
  end.

Definition isLeap (y : Z) : bool :=
  (y mod 4 =? 0) && (negb (y mod 100 =? 0) || (y mod 400 =? 0)).

Definition daysInMonth (y m : Z) : Z :=
  if m =? 2 then (if isLeap y then 29 else 28)
  else if (m =? 4) || (m =? 6) || (m =? 9) || (m =? 11) then 30
  else 31.

(** Days from 1970-01-01 to the civil date [y]-[m]-[d] (proleptic
    Gregorian calendar). *)
Definition daysFromCivil (y m d : Z) : Z :=
  let y' := if m <=? 2 then y - 1 else y in
  let era := y' / 400 in
  let yoe := y' - era * 400 in
  let doy := (153 * (if 2 <? m then m - 3 else m + 9) + 2) / 5 + d - 1 in
  let doe := yoe * 365 + yoe / 4 - yoe / 100 + doy in
  era * 146097 + doe - 719468.

(** The civil date of a day number: (year, month, day). *)
Definition civilFromDays (z : Z) : Z * Z * Z :=
  let z' := z + 719468 in
  let era := z' / 146097 in
  let doe := z' - era * 146097 in
  let yoe := (doe - doe / 1460 + doe / 36524 - doe / 146096) / 365 in
  let doy := doe - (365 * yoe + yoe / 4 - yoe / 100) in
  let mp := (5 * doy + 2) / 153 in
  let d := doy - (153 * mp + 2) / 5 + 1 in
  let m := if mp <? 10 then mp + 3 else mp - 9 in
  let y := yoe + era * 400 in
  (if m <=? 2 then y + 1 else y, m, d).

(** A UTC timestamp [YYYY-MM-DDTHH:mm:ssZ], the form the remote service
    sends: its time value in milliseconds since the epoch.  The other
    forms the runtime reads (milliseconds, zone offsets, [24:00:00], a
    day past the end of the month) are not decided here: they are left
    to [legacyParse] of the host. *)
Definition parseIsoUtc (s : string) : option Z :=
  match list_ascii_of_string s with
  | [y1; y2; y3; y4; p1; m1; m2; p2; d1; d2; t;
     h1; h2; c1; n1; n2; c2; s1; s2; z] =>
      if Ascii.eqb p1 "-" && Ascii.eqb p2 "-" && Ascii.eqb t "T"
         && Ascii.eqb c1 ":" && Ascii.eqb c2 ":" && Ascii.eqb z "Z"
      then
        match digitsValue 0 [y1; y2; y3; y4], digitsValue 0 [m1; m2],
              digitsValue 0 [d1; d2], digitsValue 0 [h1; h2],
              digitsValue 0 [n1; n2], digitsValue 0 [s1; s2] with
        | Some y, Some m, Some d, Some h, Some n, Some sec =>
            if (1 <=? m) && (m <=? 12) && (1 <=? d) && (d <=? daysInMonth y m)
               && (h <=? 23) && (n <=? 59) && (sec <=? 59)
            then Some ((daysFromCivil y m d * 86400
                        + h * 3600 + n * 60 + sec) * 1000)
            else None
        | _, _, _, _, _, _ => None
        end
      else None
  | _ => None
  end.

(** [new Date(s)]: the time value, [None] for an invalid date. *)
Definition parse (host : Host) (s : string) : option Z :=
  match parseIsoUtc s with
  | Some ms => Some ms
  | None => legacyParse host s
  end.

Definition monthShort (m : Z) : string :=
  nth (Z.to_nat (m - 1))
    ["Jan"; "Feb"; "Mar"; "Apr"; "May"; "Jun";
     "Jul"; "Aug"; "Sep"; "Oct"; "Nov"; "Dec"] "".

(** [2-digit]: a leading zero below ten. *)
Definition twoDigit (n : Z) : string :=
  if n <? 10 then "0" ++ numToString n else numToString n.

(** [date.toLocaleString('en-US', {year: 'numeric', month: 'short',
    day: 'numeric', hour: '2-digit', minute: '2-digit'})] of the time
    value [ms]: for instance [Jan 5, 2024, 03:07 PM].  (Years before
    year 1 of the local calendar are printed by number here; the
    timestamps of a wiki are far from them.) *)
Definition toLocaleString (host : Host) (ms : Z) : string :=
  let localMs := ms + localOffsetMinutes host ms * 60000 in
  let minutes := localMs / 60000 in
  let days := minutes / 1440 in
  let minuteOfDay := minutes mod 1440 in
  let hour := minuteOfDay / 60 in
  let minute := minuteOfDay mod 60 in
  let '(y, m, d) := civilFromDays days in
  let hour12 := if hour mod 12 =? 0 then 12 else hour mod 12 in
  monthShort m ++ " " ++ numToString d ++ ", " ++ numToString y ++ ", "
  ++ twoDigit hour12 ++ ":" ++ twoDigit minute
  ++ dayPeriodSeparator host ++ (if hour <? 12 then "AM" else "PM").

End Date.


(* ================================================================== *)
(** ** Data model ([src/types.ts]) *)

Module MediaWikiConfig.
Record t : Type := {
  baseUrl : string;
  username : option string;
  password : option string;
  apiToken : option string
}.
End MediaWikiConfig.

Module SearchResult.
Record t : Type := {
  title : string;
  pageid : Z;
  snippet : string;
  wordcount : Z;
  size : Z;
  timestamp : string
}.
End SearchResult.

Module PageContent.
Record t : Type := {
  pageid : Z;
  title : string;
  content : string;
  timestamp : string;
  user : string;
  comment : string;
  categories : list string;
  size : Z
}.
End PageContent.

(** The content slots of a revision, read by [getPage] as
    [revision?.slots?.main?.content]. *)
Module Slots.
Record Slot : Type := { content : option string }.
Record t : Type := { main : option Slot }.
End Slots.

(** A revision object.  [slots] is not part of the interface in
    [types.ts]; it is present when the request asks for the content. *)
Module Revision.
Record t : Type := {
  revid : Z;
  parentid : Z;
  timestamp : string;
  user : string;
  comment : string;
  size : Z;
  minor : option bool;
  slots : option Slots.t
}.
End Revision.

Module Category.
Record t : Type := {
  category : string;
  size : Z;
  pages : Z;
  files : Z;
  subcats : Z
}.
End Category.

Module CategoryMember.
Record t : Type := {
  pageid : Z;
  title : string;
  timestamp : string
}.
End CategoryMember.

Module RecentChange.
Record t : Type := {
  type : string;
  title : string;
  pageid : Z;
  revid : Z;
  old_revid : Z;
  rcid : Z;
  user : string;
  timestamp : string;
  comment : string;
  oldlen : Z;
  newlen : Z
}.
End RecentChange.

(* ================================================================== *)
(** ** The reply of the remote service

    The client reads the reply as [any].  The records below give it the
    shape of a [formatversion=2] reply; a field is optional wherever the
    client guards its access with [?.] or [||]. *)

Module Api.

(** [{ title: ... }], an entry of [categories], [links] or [backlinks]. *)
Record TitleRef : Type := { title : string }.

Record Page : Type := {
  pageid : Z;
  page_title : string;
  missing : option bool;
  length : option Z;
  revisions : option (list Revision.t);
  categories : option (list TitleRef);
  links : option (list TitleRef)
}.

Record Query : Type := {
  search : option (list SearchResult.t);
  pages : option (list Page);
  allcategories : option (list Category.t);
  categorymembers : option (list CategoryMember.t);
  recentchanges : option (list RecentChange.t);
  backlinks : option (list TitleRef)
}.

Record Parse : Type := { text : option string }.

(** The error payload of the remote service, [{ code, info }]. *)
Record ErrorPayload : Type := { code : option string; info : option string }.

Record Response : Type := {
  query : option Query;
  parse : option Parse;
  error : option ErrorPayload
}.

Definition emptyQuery : Query :=
  {| search := None; pages := None; allcategories := None;
     categorymembers := None; recentchanges := None; backlinks := None |}.

End Api.

(* ================================================================== *)
(** ** The HTTP layer ([axios]) *)

Module Axios.

Inductive ParamValue : Type :=
| PStr (s : string)
| PNum (n : Z).

(** A parameter object: its own keys, in insertion order. *)
Definition Params : Type := list (string * ParamValue).

(** [o[k] = v]: an existing key keeps its place, a new key goes last. *)
Fixpoint setParam (k : string) (v : ParamValue) (o : Params) : Params :=
  match o with
  | [] => [(k, v)]
  | (k', v') :: rest =>
      if String.eqb k' k then (k, v) :: rest
      else (k', v') :: setParam k v rest
  end.

(** [{ ...base, ...extra }]. *)
Definition spread (base extra : Params) : Params :=
  fold_left (fun o kv => setParam (fst kv) (snd kv) o) extra base.

(** [error.response] of an axios error: the reply of the server with a
    failing status, [data] being its decoded body if it has one. *)
Record ErrorResponse : Type := { status : Z; data : option Api.Response }.

Record AxiosError : Type := {
  response : option ErrorResponse;
  message : string
}.

(** How the promise of [axios.get] settles. *)
Inductive Settled : Type :=
| Fulfilled (data : Api.Response)       (* a reply with a success status *)
| RejectedAxios (err : AxiosError)      (* [axios.isAxiosError(error)] *)
| RejectedOther (e : Exn).              (* anything else that was thrown *)

(** The remote side: what a GET with the given address, headers and
    query parameters settles to. *)
Definition Network : Type :=
  string -> list (string * string) -> Params -> Settled.

Record Instance : Type := {
  baseURL : string;
  timeout : Z;
  headers : list (string * string)
}.

(** [instance.get('', { params })]. *)
Definition get (net : Network) (inst : Instance) (params : Params) : Settled :=
  net (baseURL inst) (headers inst) params.

End Axios.

(* ================================================================== *)
(** ** [MediaWikiClient] ([src/mediawiki-client.ts]) *)

Module MediaWikiClient.

Import Axios.

Record t : Type := {
  axios : Axios.Instance;
  baseUrl : string;
  apiEndpoint : string
}.

(** The constructor. *)
Definition new (config : MediaWikiConfig.t) : t :=
  let baseUrl := stripTrailingSlash (MediaWikiConfig.baseUrl config) in
  let apiEndpoint := baseUrl ++ "/api.php" in
  {| axios :=
       {| baseURL := apiEndpoint;
          timeout := 30000;
          headers :=
            [("User-Agent", "MediaWiki-MCP/1.0.0");
             ("Accept", "application/json")]
            ++ match MediaWikiConfig.apiToken config with
               | Some (String _ _ as token) =>
                   [("Authorization", "Bearer " ++ token)]
               | _ => []
               end |};
     baseUrl := baseUrl;
     apiEndpoint := apiEndpoint |}.

(** [a?.f]: [undefined] when [a] is. *)
Definition chain {A B : Type} (a : option A) (f : A -> option B) : option B :=
  match a with
  | Some x => f x
  | None => None
  end.

(** [a || []] for an array that may be [undefined]. *)
Definition orEmpty {A : Type} (a : option (list A)) : list A :=
  match a with
  | Some l => l
  | None => []
  end.

(** A parameter with a default value, [limit: number = 10]. *)
Definition defaultArg {A : Type} (d : A) (a : option A) : A :=
  match a with
  | Some x => x
  | None => d
  end.

(** [error.response?.data?.error?.info]. *)
Definition errorInfo (err : AxiosError) : option string :=
  chain (chain (chain (response err) data) Api.error) Api.info.

(** [pages[0]] after the guard [!pages || pages.length === 0]. *)
Definition firstPage (data : Api.Response) : option Api.Page :=
  match chain (Api.query data) Api.pages with
  | Some (page :: _) => Some page
  | _ => None
  end.

Section Methods.

Variable net : Axios.Network.
Variable host : Date.Host.
Variable this : t.

Definition requestParams (params : Params) : Params :=
  spread [("format", PStr "json"); ("formatversion", PNum 2)] params.

Definition apiRequest (params : Params) : Result Api.Response :=
  match Axios.get net (axios this) (requestParams params) with
  | Fulfilled data => Ok data
  | RejectedAxios error =>
      Throw (Error ("MediaWiki API error: "
                    ++ optOr (errorInfo error) (message error)))
  | RejectedOther error => Throw error
  end.

Definition searchPagesParams
    (query : string) (limit : option Z) (namespace : option Z) : Params :=
  let params :=
    [("action", PStr "query");
     ("list", PStr "search");
     ("srsearch", PStr query);
     ("srlimit", PNum (defaultArg 10 limit));
     ("srprop", PStr "snippet|timestamp|wordcount|size")] in
  match namespace with
  | Some n => setParam "srnamespace" (PNum n) params
  | None => params
  end.

Definition searchPages
    (query : string) (limit : option Z) (namespace : option Z)
    : Result (list SearchResult.t) :=
  data <- apiRequest (searchPagesParams query limit namespace) ;;
  Ok (orEmpty (chain (Api.query data) Api.search)).

Definition getPageParams (title : string) : Params :=
  [("action", PStr "query");
   ("titles", PStr title);
   ("prop", PStr "revisions|info|categories");
   ("rvprop", PStr "content|timestamp|user|comment");
   ("rvslots", PStr "main");
   ("rvlimit", PNum 1)].

(** The record [getPage] builds from an existing page. *)
Definition pageContent (page : Api.Page) : PageContent.t :=
  let revision := chain (Api.revisions page) (fun revs => nth_error revs 0) in
  let content :=
    optOr (chain (chain (chain revision Revision.slots) Slots.main)
                 Slots.content) "" in
  {| PageContent.pageid := Api.pageid page;
     PageContent.title := Api.page_title page;
     PageContent.content := content;
     PageContent.timestamp := optOr (option_map Revision.timestamp revision) "";
     PageContent.user := optOr (option_map Revision.user revision) "";
     PageContent.comment := optOr (option_map Revision.comment revision) "";
     PageContent.categories :=
       orEmpty (option_map (map Api.title) (Api.categories page));
     PageContent.size :=
       match Api.length page with
       | Some n => n       (* [0 || 0] is [0] *)
       | None => 0
       end |}.

Definition getPage (title : string) : Result (option PageContent.t) :=
  data <- apiRequest (getPageParams title) ;;
  match firstPage data with
  | None => Ok None
  | Some page =>
      match Api.missing page with
      | Some true => Ok None
      | _ => Ok (Some (pageContent page))
      end
  end.

Definition getParsedPageParams (title : string) : Params :=
  [("action", PStr "parse");
   ("page", PStr title);
   ("prop", PStr "text")].

Definition getParsedPage (title : string) : Result string :=
  data <- apiRequest (getParsedPageParams title) ;;
  Ok (optOr (chain (Api.parse data) Api.text) "").

Definition getPageHistoryParams (title : string) (limit : option Z) : Params :=
  [("action", PStr "query");
   ("titles", PStr title);
   ("prop", PStr "revisions");
   ("rvlimit", PNum (defaultArg 20 limit));
   ("rvprop", PStr "ids|timestamp|user|comment|size|flags")].

Definition getPageHistory (title : string) (limit : option Z)
    : Result (list Revision.t) :=
  data <- apiRequest (getPageHistoryParams title limit) ;;
  match firstPage data with
  | None => Ok []
  | Some page => Ok (orEmpty (Api.revisions page))
  end.

Definition listCategoriesParams
    (prefix : option string) (limit : option Z) : Params :=
  let params :=
    [("action", PStr "query");
     ("list", PStr "allcategories");
     ("aclimit", PNum (defaultArg 20 limit));
     ("acprop", PStr "size")] in
  match prefix with
  | Some (String _ _ as p) => setParam "acprefix" (PStr p) params
  | _ => params
  end.

Definition listCategories (prefix : option string) (limit : option Z)
    : Result (list Category.t) :=
  data <- apiRequest (listCategoriesParams prefix limit) ;;
  Ok (orEmpty (chain (Api.query data) Api.allcategories)).

(** The normalised title [getCategoryMembers] asks for. *)
Definition categoryTitle (category : string) : string :=
  if startsWith "Category:" category then category
  else "Category:" ++ category.

Definition getCategoryMembersParams
    (category : string) (limit : option Z) (type : option string) : Params :=
  let params :=
    [("action", PStr "query");
     ("list", PStr "categorymembers");
     ("cmtitle", PStr (categoryTitle category));
     ("cmlimit", PNum (defaultArg 50 limit));
     ("cmprop", PStr "ids|title|timestamp")] in
  match type with
  | Some (String _ _ as ty) => setParam "cmtype" (PStr ty) params
  | _ => params
  end.

Definition getCategoryMembers
    (category : string) (limit : option Z) (type : option string)
    : Result (list CategoryMember.t) :=
  data <- apiRequest (getCategoryMembersParams category limit type) ;;
  Ok (orEmpty (chain (Api.query data) Api.categorymembers)).

Definition getRecentChangesParams
    (limit : option Z) (namespace : option Z) (type : option string)
    : Params :=
  let params :=
    [("action", PStr "query");
     ("list", PStr "recentchanges");
     ("rclimit", PNum (defaultArg 20 limit));
     ("rcprop", PStr "title|ids|sizes|flags|user|timestamp|comment")] in
  let params :=
    match namespace with
    | Some n => setParam "rcnamespace" (PNum n) params
    | None => params
    end in
  match type with
  | Some (String _ _ as ty) => setParam "rctype" (PStr ty) params
  | _ => params
  end.

Definition getRecentChanges
    (limit : option Z) (namespace : option Z) (type : option string)
    : Result (list RecentChange.t) :=
  data <- apiRequest (getRecentChangesParams limit namespace type) ;;
  Ok (orEmpty (chain (Api.query data) Api.recentchanges)).

Definition getPageLinksParams (title : string) (limit : option Z) : Params :=
  [("action", PStr "query");
   ("titles", PStr title);
   ("prop", PStr "links");
   ("pllimit", PNum (defaultArg 50 limit))].

Definition getPageLinks (title : string) (limit : option Z)
    : Result (list string) :=
  data <- apiRequest (getPageLinksParams title limit) ;;
  match firstPage data with
  | None => Ok []
  | Some page => Ok (orEmpty (option_map (map Api.title) (Api.links page)))
  end.

Definition getBacklinksParams (title : string) (limit : option Z) : Params :=
  [("action", PStr "query");
   ("list", PStr "backlinks");
   ("bltitle", PStr title);
   ("bllimit", PNum (defaultArg 50 limit))].

Definition getBacklinks (title : string) (limit : option Z)
    : Result (list string) :=
  data <- apiRequest (getBacklinksParams title limit) ;;
  Ok (orEmpty
        (option_map (map Api.title) (chain (Api.query data) Api.backlinks))).

Definition getPageUrl (title : string) : string :=
  let encodedTitle := encodeURIComponent (replaceSpaces title) in
  baseUrl this ++ "/index.php/" ++ encodedTitle.

Definition formatTimestamp (timestamp : string) : string :=
  match Date.parse host timestamp with
  | Some ms => Date.toLocaleString host ms
  | None => "Invalid Date"
  end.

End Methods.

End MediaWikiClient.

(** The nine remote operations of the client as one type, to speak of
    all of them at once. *)
Module Operation.

Import MediaWikiClient.

Inductive Call : Type :=
| SearchPages (query : string) (limit namespace : option Z)
| GetPage (title : string)
| GetParsedPage (title : string)
| GetPageHistory (title : string) (limit : option Z)
| ListCategories (prefix : option string) (limit : option Z)
| GetCategoryMembers (category : string) (limit : option Z)
                     (type : option string)
| GetRecentChanges (limit namespace : option Z) (type : option string)
| GetPageLinks (title : string) (limit : option Z)
| GetBacklinks (title : string) (limit : option Z).

Inductive Value : Type :=
| Results (l : list SearchResult.t)
| Page (p : option PageContent.t)
| Html (s : string)
| Revisions (l : list Revision.t)
| Categories (l : list Category.t)
| Members (l : list CategoryMember.t)
| Changes (l : list RecentChange.t)
| Titles (l : list string).

(** The parameters the operation hands to [apiRequest]. *)
Definition paramsOf (c : Call) : Axios.Params :=
  match c with
  | SearchPages q l n => searchPagesParams q l n
  | GetPage t => getPageParams t
  | GetParsedPage t => getParsedPageParams t
  | GetPageHistory t l => getPageHistoryParams t l
  | ListCategories p l => listCategoriesParams p l
  | GetCategoryMembers c l ty => getCategoryMembersParams c l ty
  | GetRecentChanges l n ty => getRecentChangesParams l n ty
  | GetPageLinks t l => getPageLinksParams t l
  | GetBacklinks t l => getBacklinksParams t l
  end.

Definition run (net : Axios.Network) (this : MediaWikiClient.t) (c : Call)
    : Result Value :=
  match c with
  | SearchPages q l n => v <- searchPages net this q l n ;; Ok (Results v)
  | GetPage t => v <- getPage net this t ;; Ok (Page v)
  | GetParsedPage t => v <- getParsedPage net this t ;; Ok (Html v)
  | GetPageHistory t l => v <- getPageHistory net this t l ;; Ok (Revisions v)
  | ListCategories p l => v <- listCategories net this p l ;; Ok (Categories v)
  | GetCategoryMembers c l ty =>
      v <- getCategoryMembers net this c l ty ;; Ok (Members v)
  | GetRecentChanges l n ty =>
      v <- getRecentChanges net this l n ty ;; Ok (Changes v)
  | GetPageLinks t l => v <- getPageLinks net this t l ;; Ok (Titles v)
  | GetBacklinks t l => v <- getBacklinks net this t l ;; Ok (Titles v)
  end.

End Operation.

(* ================================================================== *)
(** ** The tool handlers ([src/mediawiki-tools.ts]) *)

Module Tools.

Import MediaWikiClient.

Record ContentBlock : Type := { type : string; text : string }.
Record ToolResult : Type := { content : list ContentBlock }.

(** [{ content: [{ type: "text", text }] }]. *)
Definition textResult (text : string) : ToolResult :=
  {| content := [ {| type := "text"; text := text |} ] |}.

(** [list.forEach((item, index) => { text += ... })], threading [text]. *)
Fixpoint forEachFrom {A : Type} (body : A -> nat -> string -> string)
    (index : nat) (l : list A) (text : string) : string :=
  match l with
  | [] => text
  | item :: rest => forEachFrom body (S index) rest (body item index text)
  end.

Definition forEach {A : Type} (l : list A)
    (body : A -> nat -> string -> string) (text : string) : string :=
  forEachFrom body 0 l text.

(** The entries of a list one after the other, each with its position:
    what a callback that only appends adds to [text]. *)
Fixpoint entriesFrom {A : Type} (entry : A -> nat -> string)
    (index : nat) (l : list A) : string :=
  match l with
  | [] => EmptyString
  | item :: rest => entry item index ++ entriesFrom entry (S index) rest
  end.

(** [${index + 1}]. *)
Definition ordinal (index : nat) : string := numToString (Z.of_nat index + 1).

(** [${list.length}]. *)
Definition count {A : Type} (l : list A) : string :=
  numToString (Z.of_nat (List.length l)).

(** [array.join(sep)]. *)
Definition join (sep : string) (l : list string) : string :=
  String.concat sep l.

Section Handlers.

Variable net : Axios.Network.
Variable host : Date.Host.
Variable client : MediaWikiClient.t.

(** *** search_pages *)

Definition searchEntry (result : SearchResult.t) (index : nat) : string :=
  ordinal index ++ ". **" ++ SearchResult.title result ++ "**" ++ nl
  ++ "   URL: " ++ getPageUrl client (SearchResult.title result) ++ nl
  ++ "   Snippet: " ++ stripTags (SearchResult.snippet result) ++ nl
  ++ "   Size: " ++ numToString (SearchResult.size result)
  ++ " bytes | Words: " ++ numToString (SearchResult.wordcount result)
  ++ " | Modified: "
  ++ formatTimestamp host (SearchResult.timestamp result) ++ nl ++ nl.

Definition search_pages
    (query : string) (limit : option Z) (namespace : option Z)
    : Result ToolResult :=
  let limit := defaultArg 10 limit in
  results <- searchPages net client query (Some limit) namespace ;;
  match results with
  | [] => Ok (textResult ("No results found for " ++ dq ++ query ++ dq))
  | _ =>
      let text :=
        "Found " ++ count results ++ " results for "
        ++ dq ++ query ++ dq ++ ":" ++ nl ++ nl in
      let text :=
        forEach results
          (fun result index text => text ++ searchEntry result index) text in
      Ok (textResult text)
  end.

(** *** get_page *)

Definition pageText (page : PageContent.t) (content : string) : string :=
  "# Page: " ++ PageContent.title page ++ nl
  ++ "URL: " ++ getPageUrl client (PageContent.title page) ++ nl ++ nl
  ++ "## Metadata" ++ nl
  ++ "- Page ID: " ++ numToString (PageContent.pageid page) ++ nl
  ++ "- Last Modified: "
  ++ formatTimestamp host (PageContent.timestamp page)
  ++ " by " ++ PageContent.user page ++ nl
  ++ "- Categories: "
  ++ orElse (join ", " (PageContent.categories page)) "None" ++ nl
  ++ "- Size: " ++ numToString (PageContent.size page) ++ " bytes" ++ nl
  ++ "- Comment: " ++ orElse (PageContent.comment page) "No comment"
  ++ nl ++ nl
  ++ "## Content" ++ nl ++ nl ++ content.

Definition get_page (title : string) (include_html : option bool)
    : Result ToolResult :=
  let include_html := defaultArg false include_html in
  page <- getPage net client title ;;
  match page with
  | None => Ok (textResult ("Page " ++ dq ++ title ++ dq ++ " not found"))
  | Some page =>
      content <- (if include_html then getParsedPage net client title
                  else Ok (PageContent.content page)) ;;
      Ok (textResult (pageText page content))
  end.

(** *** get_page_history *)

(** [index < revisions.length - 1 ? rev.size - revisions[index + 1].size : 0].
    The guard keeps [index + 1] inside the array, so the default of [nth]
    is never read. *)
Definition historySizeDiff
    (revisions : list Revision.t) (rev : Revision.t) (index : nat) : Z :=
  if Z.of_nat index <? Z.of_nat (List.length revisions) - 1
  then Revision.size rev - Revision.size (nth (index + 1) revisions rev)
  else 0.

Definition historyDiffText (sizeDiff : Z) : string :=
  if 0 <? sizeDiff then "(+" ++ numToString sizeDiff ++ ")"
  else if sizeDiff <? 0 then "(" ++ numToString sizeDiff ++ ")"
  else "".

(** What the callback appends for one revision, given its [diffText]. *)
Definition historyLines (rev : Revision.t) (index : nat) (diffText : string)
    : string :=
  ordinal index ++ ". [Revision " ++ numToString (Revision.revid rev) ++ "] "
  ++ formatTimestamp host (Revision.timestamp rev)
  ++ match Revision.minor rev with
     | Some true => " (minor)"
     | _ => ""
     end ++ nl
  ++ "   By: " ++ Revision.user rev ++ nl
  ++ "   Comment: " ++ orElse (Revision.comment rev) "No comment" ++ nl
  ++ "   Size: " ++ numToString (Revision.size rev) ++ " bytes "
  ++ diffText ++ nl ++ nl.

Definition historyEntry
    (revisions : list Revision.t) (rev : Revision.t) (index : nat) : string :=
  let sizeDiff := historySizeDiff revisions rev index in
  let diffText := historyDiffText sizeDiff in
  historyLines rev index diffText.

Definition get_page_history (title : string) (limit : option Z)
    : Result ToolResult :=
  let limit := defaultArg 20 limit in
  revisions <- getPageHistory net client title (Some limit) ;;
  match revisions with
  | [] =>
      Ok (textResult
            ("No revision history found for " ++ dq ++ title ++ dq))
  | _ =>
      let text :=
        "# Revision History: " ++ title ++ nl ++ nl
        ++ "## Recent Changes" ++ nl ++ nl in
      let text :=
        forEach revisions
          (fun rev index text => text ++ historyEntry revisions rev index)
          text in
      Ok (textResult text)
  end.

(** *** get_recent_changes *)

Definition changeSizeDiff (change : RecentChange.t) : Z :=
  RecentChange.newlen change - RecentChange.oldlen change.

(** [sizeDiff > 0 ? `+${sizeDiff}` : sizeDiff], as the template prints it. *)
Definition changeDiffText (sizeDiff : Z) : string :=
  if 0 <? sizeDiff then "+" ++ numToString sizeDiff
  else numToString sizeDiff.

(** What the callback appends for one change, given its [diffText]. *)
Definition changeLines (change : RecentChange.t) (index : nat)
    (diffText : string) : string :=
  ordinal index ++ ". [" ++ toUpperCase (RecentChange.type change) ++ "] **"
  ++ RecentChange.title change ++ "** - "
  ++ formatTimestamp host (RecentChange.timestamp change) ++ nl
  ++ "   By: " ++ RecentChange.user change ++ nl
  ++ "   Comment: " ++ orElse (RecentChange.comment change) "No comment" ++ nl
  ++ "   Size change: " ++ diffText ++ " bytes" ++ nl
  ++ "   URL: " ++ getPageUrl client (RecentChange.title change) ++ nl ++ nl.

Definition changeEntry (change : RecentChange.t) (index : nat) : string :=
  let sizeDiff := changeSizeDiff change in
  let diffText := changeDiffText sizeDiff in
  changeLines change index diffText.

Definition get_recent_changes
    (limit : option Z) (namespace : option Z) (type : option string)
    : Result ToolResult :=
  let limit := defaultArg 20 limit in
  changes <- getRecentChanges net client (Some limit) namespace type ;;
  match changes with
  | [] => Ok (textResult "No recent changes found")
  | _ =>
      let text := "# Recent Changes" ++ nl ++ nl in
      let text :=
        forEach changes
          (fun change index text => text ++ changeEntry change index) text in
      Ok (textResult text)
  end.

(** *** list_categories *)

Definition categoryEntry (cat : Category.t) (index : nat) : string :=
  ordinal index ++ ". **" ++ Category.category cat ++ "** ("
  ++ numToString (Category.size cat) ++ " total members)" ++ nl
  ++ "   URL: " ++ getPageUrl client ("Category:" ++ Category.category cat)
  ++ nl
  ++ "   Pages: " ++ numToString (Category.pages cat)
  ++ " | Files: " ++ numToString (Category.files cat)
  ++ " | Subcategories: " ++ numToString (Category.subcats cat) ++ nl ++ nl.

Definition list_categories (prefix : option string) (limit : option Z)
    : Result ToolResult :=
  let limit := defaultArg 20 limit in
  categories <- listCategories net client prefix (Some limit) ;;
  match categories with
  | [] =>
      Ok (textResult
            match prefix with
            | Some (String _ _ as p) =>
                "No categories found starting with " ++ dq ++ p ++ dq
            | _ => "No categories found"
            end)
  | _ =>
      let text :=
        "# Wiki Categories"
        ++ match prefix with
           | Some (String _ _ as p) => " (prefix: " ++ dq ++ p ++ dq ++ ")"
           | _ => ""
           end ++ nl ++ nl in
      let text :=
        forEach categories
          (fun cat index text => text ++ categoryEntry cat index) text in
      Ok (textResult text)
  end.

(** *** get_category_members *)

Definition memberEntry (member : CategoryMember.t) (index : nat) : string :=
  ordinal index ++ ". **" ++ CategoryMember.title member ++ "**" ++ nl
  ++ "   URL: " ++ getPageUrl client (CategoryMember.title member) ++ nl
  ++ "   Last modified: "
  ++ formatTimestamp host (CategoryMember.timestamp member) ++ nl ++ nl.

Definition get_category_members
    (category : string) (limit : option Z) (type : option string)
    : Result ToolResult :=
  let limit := defaultArg 50 limit in
  members <- getCategoryMembers net client category (Some limit) type ;;
  match members with
  | [] =>
      Ok (textResult
            ("No members found in category " ++ dq ++ category ++ dq))
  | _ =>
      let categoryTitle :=
        if startsWith "Category:" category then category
        else "Category:" ++ category in
      let text := "# Category: " ++ categoryTitle ++ nl in
      let text :=
        text ++ "Total members: " ++ count members
        ++ match type with
           | Some (String _ _ as ty) => " (type: " ++ ty ++ ")"
           | _ => ""
           end ++ nl ++ nl in
      let text := text ++ "## Members" ++ nl ++ nl in
      let text :=
        forEach members
          (fun member index text => text ++ memberEntry member index) text in
      Ok (textResult text)
  end.

(** *** get_page_links *)

(** [z.enum(["from", "to"])]. *)
Inductive Direction : Type := From | To.

Definition linkEntry (link : string) (index : nat) : string :=
  ordinal index ++ ". **" ++ link ++ "**" ++ nl
  ++ "   URL: " ++ getPageUrl client link ++ nl ++ nl.

Definition get_page_links
    (title : string) (direction : option Direction) (limit : option Z)
    : Result ToolResult :=
  let direction := defaultArg From direction in
  let limit := defaultArg 50 limit in
  links <- match direction with
           | From => getPageLinks net client title (Some limit)
           | To => getBacklinks net client title (Some limit)
           end ;;
  match links with
  | [] =>
      Ok (textResult
            match direction with
            | From => "No outgoing links found from " ++ dq ++ title ++ dq
            | To => "No backlinks found to " ++ dq ++ title ++ dq
            end)
  | _ =>
      let text :=
        match direction with
        | From =>
            "# Links from: " ++ title ++ nl ++ nl
            ++ "Found " ++ count links ++ " outgoing links:" ++ nl ++ nl
        | To =>
            "# Links to: " ++ title ++ nl ++ nl
            ++ "Found " ++ count links ++ " backlinks:" ++ nl ++ nl
        end in
      let text :=
        forEach links
          (fun link index text => text ++ linkEntry link index) text in
      Ok (textResult text)
  end.

End Handlers.

End Tools.

(* ================================================================== *)
(** ** Notions used to state the properties *)

(** Two titles that differ only in that, at some positions, one has a
    space where the other has an underscore. *)
Inductive SpaceVariant : string -> string -> Prop :=
| sv_nil : SpaceVariant EmptyString EmptyString
| sv_same (c : ascii) (s t : string) :
    SpaceVariant s t -> SpaceVariant (String c s) (String c t)
| sv_space_underscore (s t : string) :
    SpaceVariant s t -> SpaceVariant (String " " s) (String "_" t)
| sv_underscore_space (s t : string) :
    SpaceVariant s t -> SpaceVariant (String "_" s) (String " " t).

(** Concrete values for the worked examples. *)
Module Examples.

Import Axios.

Definition config : MediaWikiConfig.t :=
  {| MediaWikiConfig.baseUrl := "https://wiki.example.com/";
     MediaWikiConfig.username := None;
     MediaWikiConfig.password := None;
     MediaWikiConfig.apiToken := None |}.

Definition wiki : MediaWikiClient.t := MediaWikiClient.new config.

(** A host in UTC and one nine hours east of it.  Their [legacyParse]
    reads nothing: they are meant for timestamps in the form the remote
    service sends, and for the empty string. *)
Definition hostUtc : Date.Host :=
  {| Date.localOffsetMinutes := fun _ => 0;
     Date.legacyParse := fun _ => None;
     Date.dayPeriodSeparator := " " |}.

Definition hostTokyo : Date.Host :=
  {| Date.localOffsetMinutes := fun _ => 540;
     Date.legacyParse := fun _ => None;
     Date.dayPeriodSeparator := " " |}.

Definition reply (q : Api.Query) : Api.Response :=
  {| Api.query := Some q; Api.parse := None; Api.error := None |}.

(** A reply with a success status whose body is an error payload. *)
Definition errorReply : Api.Response :=
  {| Api.query := None; Api.parse := None;
     Api.error :=
       Some {| Api.code := Some "badvalue";
               Api.info := Some "Unrecognized value for parameter." |} |}.

Definition netErrorReply : Network := fun _ _ _ => Fulfilled errorReply.

(** A request that fails with status 500 and an error payload. *)
Definition serverError : AxiosError :=
  {| response :=
       Some {| status := 500;
               data :=
                 Some {| Api.query := None; Api.parse := None;
                         Api.error :=
                           Some {| Api.code := Some "internal_api_error";
                                   Api.info := Some "Database error" |} |} |};
     message := "Request failed with status code 500" |}.

Definition netServerError : Network := fun _ _ _ => RejectedAxios serverError.

Definition missingPage : Api.Page :=
  {| Api.pageid := 0; Api.page_title := "No Such Page";
     Api.missing := Some true; Api.length := None; Api.revisions := None;
     Api.categories := None; Api.links := None |}.

(** The [query] part of a reply that lists pages. *)
Definition pagesQuery (pages : list Api.Page) : Api.Query :=
  {| Api.search := None; Api.pages := Some pages;
     Api.allcategories := None; Api.categorymembers := None;
     Api.recentchanges := None; Api.backlinks := None |}.

Definition netMissing : Network :=
  fun _ _ _ => Fulfilled (reply (pagesQuery [missingPage])).

(** An existing page whose reply carries no revision, no category and no
    length. *)
Definition barePage : Api.Page :=
  {| Api.pageid := 7; Api.page_title := "Stub";
     Api.missing := None; Api.length := None; Api.revisions := None;
     Api.categories := None; Api.links := None |}.

Definition netBare : Network :=
  fun _ _ _ => Fulfilled (reply (pagesQuery [barePage])).

Definition revisionOfSize (id size : Z) : Revision.t :=
  {| Revision.revid := id; Revision.parentid := id - 1;
     Revision.timestamp := "2024-01-05T15:07:00Z";
     Revision.user := "Alice"; Revision.comment := "";
     Revision.size := size; Revision.minor := None;
     Revision.slots := None |}.

(** Three revisions, newest first, of 500, 420 and 420 bytes. *)
Definition threeRevisions : list Revision.t :=
  [revisionOfSize 3 500; revisionOfSize 2 420; revisionOfSize 1 420].

Definition netThreeRevisions : Network :=
  fun _ _ _ =>
    Fulfilled
      (reply (pagesQuery
                [ {| Api.pageid := 1; Api.page_title := "Main Page";
                     Api.missing := None; Api.length := Some 500;
                     Api.revisions := Some threeRevisions;
                     Api.categories := None; Api.links := None |} ])).

Definition changeOfLengths (oldlen newlen : Z) : RecentChange.t :=
  {| RecentChange.type := "edit"; RecentChange.title := "Main Page";
     RecentChange.pageid := 1; RecentChange.revid := 12;
     RecentChange.old_revid := 11; RecentChange.rcid := 40;
     RecentChange.user := "Alice";
     RecentChange.timestamp := "2024-01-05T15:07:00Z";
     RecentChange.comment := "";
     RecentChange.oldlen := oldlen; RecentChange.newlen := newlen |}.

End Examples.

(* ================================================================== *)
(** ** The registered tools as one type

    [registerMediaWikiTools] registers seven handlers under their names;
    [Tool.invoke] is the call of one of them with its input. *)

Module Tool.

Import MediaWikiClient Tools.

Inductive Call : Type :=
| SearchPages (query : string) (limit namespace : option Z)
| GetPage (title : string) (include_html : option bool)
| GetPageHistory (title : string) (limit : option Z)
| ListCategories (prefix : option string) (limit : option Z)
| GetCategoryMembers (category : string) (limit : option Z)
                     (type : option string)
| GetRecentChanges (limit namespace : option Z) (type : option string)
| GetPageLinks (title : string) (direction : option Direction)
               (limit : option Z).

(** The name the handler is registered under. *)
Definition name (c : Call) : string :=
  match c with
  | SearchPages _ _ _ => "search_pages"
  | GetPage _ _ => "get_page"
  | GetPageHistory _ _ => "get_page_history"
  | ListCategories _ _ => "list_categories"
  | GetCategoryMembers _ _ _ => "get_category_members"
  | GetRecentChanges _ _ _ => "get_recent_changes"
  | GetPageLinks _ _ _ => "get_page_links"
  end.

Definition invoke (net : Axios.Network) (host : Date.Host)
    (client : MediaWikiClient.t) (c : Call) : Result ToolResult :=
  match c with
  | SearchPages q l n => search_pages net host client q l n
  | GetPage t h => get_page net host client t h
  | GetPageHistory t l => get_page_history net host client t l
  | ListCategories p l => list_categories net client p l
  | GetCategoryMembers c l ty => get_category_members net host client c l ty
  | GetRecentChanges l n ty => get_recent_changes net host client l n ty
  | GetPageLinks t d l => get_page_links net client t d l
  end.

(** The parameters of the first request the handler has the client
    make. *)
Definition firstRequest (c : Call) : Axios.Params :=
  match c with
  | SearchPages q l n => searchPagesParams q (Some (defaultArg 10 l)) n
  | GetPage t _ => getPageParams t
  | GetPageHistory t l => getPageHistoryParams t (Some (defaultArg 20 l))
  | ListCategories p l => listCategoriesParams p (Some (defaultArg 20 l))
  | GetCategoryMembers c l ty =>
      getCategoryMembersParams c (Some (defaultArg 50 l)) ty
  | GetRecentChanges l n ty =>
      getRecentChangesParams (Some (defaultArg 20 l)) n ty
  | GetPageLinks t d l =>
      match defaultArg From d with
      | From => getPageLinksParams t (Some (defaultArg 50 l))
      | To => getBacklinksParams t (Some (defaultArg 50 l))
      end
  end.

(** All the requests the handler can have the client make: the first
    one and, for [get_page] with [include_html], the parse request. *)
Definition requestsOf (c : Call) : list Axios.Params :=
  firstRequest c
  :: match c with
     | GetPage t h =>
         if defaultArg false h then [getParsedPageParams t] else []
     | _ => []
     end.

End Tool.

(* ================================================================== *)
(** ** Start-up ([src/index.ts], and the same lines of
    [src/sse-transport.ts]) *)

Module Startup.

(** [process.env]. *)
Definition Env : Type := string -> option string.

Definition loadConfig (env : Env) : MediaWikiConfig.t :=
  {| MediaWikiConfig.baseUrl := optOr (env "MEDIAWIKI_BASE_URL") "";
     MediaWikiConfig.username := env "MEDIAWIKI_USERNAME";
     MediaWikiConfig.password := env "MEDIAWIKI_PASSWORD";
     MediaWikiConfig.apiToken := env "MEDIAWIKI_API_TOKEN" |}.

Inductive Outcome : Type :=
| Exit (code : Z) (diagnostic : string)   (* [console.error]; [process.exit] *)
| Serve (client : MediaWikiClient.t).     (* the server is created *)

(** The module body up to the creation of the client. *)
Definition start (env : Env) : Outcome :=
  let config := loadConfig env in
  match MediaWikiConfig.baseUrl config with
  | EmptyString =>
      Exit 1 "Error: MEDIAWIKI_BASE_URL environment variable is required"
  | _ => Serve (MediaWikiClient.new config)
  end.

End Startup.

(* ================================================================== *)
(** ** More notions used to state properties *)

(** The value of a key of a parameter object. *)
Fixpoint paramOf (k : string) (o : Axios.Params) : option Axios.ParamValue :=
  match o with
  | [] => None
  | (k', v) :: rest => if String.eqb k' k then Some v else paramOf k rest
  end.

(** Every character of the string satisfies the test. *)
Fixpoint allChars (p : ascii -> bool) (s : string) : bool :=
  match s with
  | EmptyString => true
  | String c rest => p c && allChars p rest
  end.

(** The characters an escaped URI component is made of: the unreserved
    ones, the percent sign and the upper-case hexadecimal digits. *)
Definition isEscapedChar (c : ascii) : bool :=
  uriUnreserved c || Ascii.eqb c "%"
  || existsb (Ascii.eqb c) ["A"; "B"; "C"; "D"; "E"; "F"]%char.

(** A reply that reports nothing: no [query] part, or one whose lists
    are left out (the list of pages may also be empty), and no parsed
    text. *)
Definition emptyReply (data : Api.Response) : Prop :=
  (Api.query data = None
   \/ exists q,
        Api.query data = Some q
        /\ Api.search q = None
        /\ (Api.pages q = None \/ Api.pages q = Some [])
        /\ Api.allcategories q = None
        /\ Api.categorymembers q = None
        /\ Api.recentchanges q = None
        /\ Api.backlinks q = None)
  /\ (Api.parse data = None
      \/ Api.parse data = Some {| Api.text := None |}).

Fixpoint sumZ (l : list Z) : Z :=
  match l with
  | [] => 0
  | x :: rest => x + sumZ rest
  end.

(** More concrete values for worked examples. *)
Module MoreExamples.

Import Axios Examples.

(** A reply with nothing in it. *)
Definition nothing : Api.Response :=
  {| Api.query := None; Api.parse := None; Api.error := None |}.

Definition netNothing : Network := fun _ _ _ => Fulfilled nothing.

(** The remote side of [Examples.netMissing], except that it is down
    for parse requests. *)
Definition netMissingNoParse : Network :=
  fun url headers params =>
    match paramOf "action" params with
    | Some (PStr action) =>
        if String.eqb action "parse" then RejectedOther (Foreign "down")
        else netMissing url headers params
    | _ => netMissing url headers params
    end.

Definition member : CategoryMember.t :=
  {| CategoryMember.pageid := 5; CategoryMember.title := "Bar";
     CategoryMember.timestamp := "2024-01-05T15:07:00Z" |}.

Definition netMembers : Network :=
  fun _ _ _ =>
    Fulfilled
      (reply {| Api.search := None; Api.pages := None;
                Api.allcategories := None;
                Api.categorymembers := Some [member];
                Api.recentchanges := None; Api.backlinks := None |}).

(** Two recent changes: one from 100 to 80 bytes, one from 100 to 150. *)
Definition netTwoChanges : Network :=
  fun _ _ _ =>
    Fulfilled
      (reply {| Api.search := None; Api.pages := None;
                Api.allcategories := None; Api.categorymembers := None;
                Api.recentchanges :=
                  Some [changeOfLengths 100 80; changeOfLengths 100 150];
                Api.backlinks := None |}).

(** One search result whose snippet carries markup. *)
Definition netSearch : Network :=
  fun _ _ _ =>
    Fulfilled
      (reply {| Api.search :=
                  Some [ {| SearchResult.title := "Main Page";
                            SearchResult.pageid := 1;
                            SearchResult.snippet := "<span>hello</span> world";
                            SearchResult.wordcount := 2;
                            SearchResult.size := 11;
                            SearchResult.timestamp :=
                              "2024-01-05T15:07:00Z" |} ];
                Api.pages := None; Api.allcategories := None;
                Api.categorymembers := None; Api.recentchanges := None;
                Api.backlinks := None |}).

(** A page with two outgoing links. *)
Definition netLinks : Network :=
  fun _ _ _ =>
    Fulfilled
      (reply (pagesQuery
                [ {| Api.pageid := 1; Api.page_title := "Main Page";
                     Api.missing := None; Api.length := None;
                     Api.revisions := None; Api.categories := None;
                     Api.links :=
                       Some [ {| Api.title := "Help" |};
                              {| Api.title := "About us" |} ] |} ])).

(** A remote side that cannot be reached. *)
Definition netOffline : Network :=
  fun _ _ _ => RejectedOther (Foreign "offline").

(** An environment with a base address and nothing else. *)
Definition env : Startup.Env :=
  fun name =>
    if String.eqb name "MEDIAWIKI_BASE_URL"
    then Some "https://wiki.example.com/"
    else None.

End MoreExamples.

(* ================================================================== *)
(** * Properties *)

(** ** Strings *)

Section StringFacts.

Lemma append_nil_r (s : string) : s ++ "" = s.
Proof. induction s as [|c s IH]; simpl; [reflexivity | now rewrite IH]. Qed.

Lemma append_assoc (a b c : string) : (a ++ b) ++ c = a ++ (b ++ c).
Proof. induction a as [|x a IH]; simpl; [reflexivity | now rewrite IH]. Qed.

Lemma contains_app (x : ascii) (a b : string) :
  contains x (a ++ b) = contains x a || contains x b.
Proof.
  induction a as [|c a IH]; simpl; [reflexivity|].
  rewrite IH. now rewrite orb_assoc.
Qed.

Lemma contains_here (x : ascii) (s : string) :
  contains x (String x s) = true.
Proof. simpl. now rewrite Ascii.eqb_refl. Qed.

(** The scan only drops characters: a [">"] of the output was in the
    input. *)
Lemma contains_scanTags (s : string) :
  forall inTag, contains ">" (scanTags inTag s) = true -> contains ">" s = true.
Proof.
  induction s as [|c s IH]; intros inTag H; simpl in *; [discriminate|].
  destruct inTag.
  - destruct (Ascii.eqb c ">") eqn:E; [reflexivity|].
    simpl. exact (IH _ H).
  - destruct (Ascii.eqb c "<" && contains ">" s) eqn:E.
    + apply IH in H. rewrite H. apply orb_true_r.
    + simpl in H. apply orb_true_iff in H as [H|H].
      * rewrite H. reflexivity.
      * apply IH in H. rewrite H. apply orb_true_r.
Qed.

(** A ["<"] that survives the scan has no [">"] after it. *)
Lemma scanTags_open_unclosed (s : string) :
  forall inTag a r,
    scanTags inTag s = a ++ String "<" r -> contains ">" r = false.
Proof.
  induction s as [|c s IH]; intros inTag a r H; simpl in H.
  - destruct a; discriminate.
  - destruct inTag.
    + destruct (Ascii.eqb c ">"); exact (IH _ _ _ H).
    + destruct (Ascii.eqb c "<" && contains ">" s) eqn:E.
      * exact (IH _ _ _ H).
      * destruct a as [|x a]; simpl in H.
        -- injection H as Hc Hr. subst c.
           rewrite Ascii.eqb_refl in E. simpl in E.
           destruct (contains ">" r) eqn:Hr'; [|reflexivity].
           rewrite <- Hr in Hr'. apply contains_scanTags in Hr'.
           congruence.
        -- injection H as _ Hr. exact (IH _ _ _ Hr).
Qed.

Lemma scanTags_inside (body post : string) :
  contains ">" body = false ->
  scanTags true (body ++ String ">" post) = scanTags false post.
Proof.
  induction body as [|c body IH]; simpl; intros H.
  - reflexivity.
  - apply orb_false_iff in H as [Hc Hb]. rewrite Hc. exact (IH Hb).
Qed.

Lemma stripTags_outside (pre rest : string) :
  contains "<" pre = false ->
  stripTags (pre ++ rest) = pre ++ stripTags rest.
Proof.
  unfold stripTags.
  induction pre as [|c pre IH]; simpl; intros H; [reflexivity|].
  apply orb_false_iff in H as [Hc Hp]. rewrite Hc. simpl.
  now rewrite (IH Hp).
Qed.

(** A tag met outside of any tag goes away whole; the text before it
    stays. *)
Lemma stripTags_tag (pre body post : string) :
  contains "<" pre = false ->
  contains ">" body = false ->
  stripTags (pre ++ String "<" (body ++ String ">" post))
  = pre ++ stripTags post.
Proof.
  intros Hpre Hbody. rewrite (stripTags_outside _ _ Hpre). f_equal.
  unfold stripTags. simpl.
  rewrite contains_app, contains_here, orb_true_r.
  exact (scanTags_inside _ _ Hbody).
Qed.

Lemma stripTags_plain (s : string) :
  contains "<" s = false -> stripTags s = s.
Proof.
  intros H. rewrite <- (append_nil_r s) at 1.
  rewrite (stripTags_outside _ _ H). apply append_nil_r.
Qed.

(** No tag is left in the output. *)
Lemma stripTags_tag_free (s a b c : string) :
  stripTags s <> a ++ String "<" (b ++ String ">" c).
Proof.
  intros H. apply scanTags_open_unclosed in H.
  rewrite contains_app, contains_here, orb_true_r in H. discriminate.
Qed.

(** *** Percent-encoding *)

Lemma percentDecode_escapeByte (c : ascii) (rest : string) :
  percentDecode (escapeByte c ++ rest)
  = option_map (String c) (percentDecode rest).
Proof.
  destruct c as [[] [] [] [] [] [] [] []];
    cbn; destruct (percentDecode rest); reflexivity.
Qed.

Lemma uriUnreserved_not_percent (c : ascii) :
  uriUnreserved c = true -> Ascii.eqb c "%" = false.
Proof.
  destruct c as [[] [] [] [] [] [] [] []]; vm_compute; congruence.
Qed.

Lemma percentDecode_encodeURIComponent (s : string) :
  percentDecode (encodeURIComponent s) = Some s.
Proof.
  induction s as [|c s IH]; [reflexivity|].
  cbn [encodeURIComponent]. destruct (uriUnreserved c) eqn:E.
  - cbn [percentDecode]. rewrite (uriUnreserved_not_percent _ E).
    now rewrite IH.
  - rewrite percentDecode_escapeByte. now rewrite IH.
Qed.

Lemma replaceSpaces_plain (s : string) :
  contains " " s = false -> replaceSpaces s = s.
Proof.
  induction s as [|c s IH]; simpl; intros H; [reflexivity|].
  apply orb_false_iff in H as [Hc Hs]. rewrite Hc. now rewrite (IH Hs).
Qed.

Lemma replaceSpaces_variant (s t : string) :
  SpaceVariant s t -> replaceSpaces s = replaceSpaces t.
Proof.
  induction 1 as [|c s t _ IH|s t _ IH|s t _ IH]; simpl;
    [reflexivity | now rewrite IH ..].
Qed.

End StringFacts.

(** *** Numbers in templates *)

Section NumberFacts.

Lemma numToString_negative (n : Z) :
  n < 0 -> numToString n = "-" ++ numToString (- n).
Proof. destruct n as [|p|p]; intros H; try lia. reflexivity. Qed.

Lemma uint_no_paren (u : Decimal.uint) :
  contains "(" (NilEmpty.string_of_uint u) = false
  /\ contains ")" (NilEmpty.string_of_uint u) = false.
Proof. induction u; simpl; auto. Qed.

Lemma numToString_no_paren (n : Z) :
  contains "(" (numToString n) = false
  /\ contains ")" (numToString n) = false.
Proof.
  unfold numToString.
  destruct (Z.to_int n) as [u|u]; simpl;
    destruct u; simpl; auto using uint_no_paren.
Qed.

End NumberFacts.

(** ** The tool handlers *)

Section ToolFacts.

Import MediaWikiClient Tools.

Variable net : Axios.Network.
Variable host : Date.Host.
Variable client : MediaWikiClient.t.

(** A callback that only appends adds the entries in order. *)
Lemma forEachFrom_append {A : Type} (entry : A -> nat -> string)
    (l : list A) :
  forall index text,
    forEachFrom (fun item i t => t ++ entry item i) index l text
    = text ++ entriesFrom entry index l.
Proof.
  induction l as [|x l IH]; intros index text; simpl.
  - now rewrite append_nil_r.
  - rewrite IH. apply append_assoc.
Qed.

Lemma forEach_append {A : Type} (entry : A -> nat -> string)
    (l : list A) (text : string) :
  forEach l (fun item i t => t ++ entry item i) text
  = text ++ entriesFrom entry 0 l.
Proof. apply forEachFrom_append. Qed.

(** The entry of the item at position [length before] is part of the
    text, between the entries of its neighbours. *)
Lemma entriesFrom_app {A : Type} (entry : A -> nat -> string)
    (before : list A) (item : A) (after : list A) :
  forall index,
    entriesFrom entry index (before ++ item :: after)
    = entriesFrom entry index before
      ++ entry item (index + List.length before)%nat
      ++ entriesFrom entry (S (index + List.length before)) after.
Proof.
  induction before as [|x before IH]; intros index; simpl.
  - now rewrite Nat.add_0_r.
  - rewrite IH, append_assoc.
    now replace (S index + List.length before)%nat
      with (index + S (List.length before))%nat by lia.
Qed.

Lemma historySizeDiff_inner (before : list Revision.t)
    (rev next : Revision.t) (after : list Revision.t) :
  historySizeDiff (before ++ rev :: next :: after) rev (List.length before)
  = Revision.size rev - Revision.size next.
Proof.
  unfold historySizeDiff.
  rewrite List.length_app. simpl List.length.
  replace (Z.of_nat (List.length before)
           <? Z.of_nat (List.length before + S (S (List.length after))) - 1)
    with true by (symmetry; apply Z.ltb_lt; lia).
  rewrite app_nth2 by lia.
  replace (List.length before + 1 - List.length before)%nat with 1%nat by lia.
  reflexivity.
Qed.

Lemma historySizeDiff_last (before : list Revision.t) (rev : Revision.t) :
  historySizeDiff (before ++ [rev]) rev (List.length before) = 0.
Proof.
  unfold historySizeDiff.
  rewrite List.length_app. simpl List.length.
  replace (Z.of_nat (List.length before)
           <? Z.of_nat (List.length before + 1) - 1)
    with false by (symmetry; apply Z.ltb_ge; lia).
  reflexivity.
Qed.

Lemma historyDiffText_cases (d : Z) :
  historyDiffText d
  = match (d ?= 0)%Z with
    | Gt => "(+" ++ numToString d ++ ")"
    | Lt => "(" ++ numToString d ++ ")"
    | Eq => ""
    end.
Proof.
  unfold historyDiffText.
  destruct (Z.compare_spec d 0) as [E|L|G].
  - subst d. reflexivity.
  - replace (0 <? d) with false by (symmetry; apply Z.ltb_ge; lia).
    now replace (d <? 0) with true by (symmetry; apply Z.ltb_lt; lia).
  - now replace (0 <? d) with true by (symmetry; apply Z.ltb_lt; lia).
Qed.

Lemma entriesFrom_ext {A : Type} (f g : A -> nat -> string) (l : list A) :
  (forall item index, f item index = g item index) ->
  forall index, entriesFrom f index l = entriesFrom g index l.
Proof.
  intros H. induction l as [|x l IH]; intros index; simpl; [reflexivity|].
  now rewrite H, IH.
Qed.

(** The delta of the code, by the revision that follows in the reply. *)
Lemma historySizeDiff_next (revisions : list Revision.t)
    (rev : Revision.t) (index : nat) :
  historySizeDiff revisions rev index
  = match nth_error revisions (S index) with
    | Some next => Revision.size rev - Revision.size next
    | None => 0
    end.
Proof.
  unfold historySizeDiff.
  destruct (Z.of_nat index <? Z.of_nat (List.length revisions) - 1) eqn:E.
  - apply Z.ltb_lt in E.
    rewrite Nat.add_1_r.
    rewrite (nth_error_nth' revisions rev) by lia. reflexivity.
  - apply Z.ltb_ge in E.
    replace (nth_error revisions (S index)) with (@None Revision.t);
      [reflexivity|].
    symmetry. apply nth_error_None. lia.
Qed.

(** C2.  The text of [get_page_history] is its heading followed by one
    entry for every revision of the reply, in order and numbered from 1.
    The last line of the entry of a revision reads [Size: <size> bytes]
    followed by the delta against the revision that follows it in the
    reply, [size - size of that one]: [(+d)] when it is positive, [(d)]
    when it is negative, nothing when it is zero, and nothing for the
    last revision of the reply.  For three revisions of 500, 420 and 420
    bytes the entries show [(+80)], nothing and nothing. *)
Theorem history_size_delta_rendering (title : string) (limit : option Z) :
  let delta (revisions : list Revision.t) (rev : Revision.t) (index : nat) :=
    match nth_error revisions (S index) with
    | Some next =>
        let d := Revision.size rev - Revision.size next in
        match (d ?= 0)%Z with
        | Gt => "(+" ++ numToString d ++ ")"
        | Lt => "(" ++ numToString d ++ ")"
        | Eq => ""
        end
    | None => ""
    end in
  let entry (revisions : list Revision.t) (rev : Revision.t) (index : nat) :=
    numToString (Z.of_nat index + 1)
    ++ ". [Revision " ++ numToString (Revision.revid rev) ++ "] "
    ++ formatTimestamp host (Revision.timestamp rev)
    ++ match Revision.minor rev with
       | Some true => " (minor)"
       | _ => ""
       end ++ nl
    ++ "   By: " ++ Revision.user rev ++ nl
    ++ "   Comment: "
    ++ match Revision.comment rev with
       | "" => "No comment"
       | comment => comment
       end ++ nl
    ++ "   Size: " ++ numToString (Revision.size rev) ++ " bytes "
    ++ delta revisions rev index ++ nl ++ nl in
  get_page_history net host client title limit
  = match getPageHistory net client title (Some (defaultArg 20 limit)) with
    | Throw e => Throw e
    | Ok [] =>
        Ok (textResult
              ("No revision history found for " ++ dq ++ title ++ dq))
    | Ok revisions =>
        Ok (textResult
              ("# Revision History: " ++ title ++ nl ++ nl
               ++ "## Recent Changes" ++ nl ++ nl
               ++ entriesFrom (entry revisions) 0 revisions))
    end
  /\ (forall (before : list Revision.t) rev next after,
        let d := Revision.size rev - Revision.size next in
        delta (before ++ rev :: next :: after)%list rev (List.length before)
        = match (d ?= 0)%Z with
          | Gt => "(+" ++ numToString d ++ ")"
          | Lt => "(" ++ numToString d ++ ")"
          | Eq => ""
          end)
  /\ (forall (before : list Revision.t) rev,
        delta (before ++ [rev])%list rev (List.length before) = "")
  /\ (forall (entry : Revision.t -> nat -> string) a b c,
        entriesFrom entry 0 [a; b; c]
        = entry a 0%nat ++ entry b 1%nat ++ entry c 2%nat)
  /\ get_page_history Examples.netThreeRevisions Examples.hostUtc
       Examples.wiki "Main Page" None
     = Ok (textResult
             ("# Revision History: Main Page" ++ nl ++ nl
              ++ "## Recent Changes" ++ nl ++ nl
              ++ "1. [Revision 3] Jan 5, 2024, 03:07 PM" ++ nl
              ++ "   By: Alice" ++ nl
              ++ "   Comment: No comment" ++ nl
              ++ "   Size: 500 bytes (+80)" ++ nl ++ nl
              ++ "2. [Revision 2] Jan 5, 2024, 03:07 PM" ++ nl
              ++ "   By: Alice" ++ nl
              ++ "   Comment: No comment" ++ nl
              ++ "   Size: 420 bytes " ++ nl ++ nl
              ++ "3. [Revision 1] Jan 5, 2024, 03:07 PM" ++ nl
              ++ "   By: Alice" ++ nl
              ++ "   Comment: No comment" ++ nl
              ++ "   Size: 420 bytes " ++ nl ++ nl)).
Proof.
  intros delta entry.
  assert (E : forall revisions rev index,
            historyEntry host revisions rev index = entry revisions rev index).
  { intros revisions rev index.
    unfold historyEntry, historyLines, entry, delta, ordinal.
    rewrite historySizeDiff_next.
    replace (historyDiffText
               match nth_error revisions (S index) with
               | Some next => Revision.size rev - Revision.size next
               | None => 0
               end)
      with (match nth_error revisions (S index) with
            | Some next =>
                let d := Revision.size rev - Revision.size next in
                match (d ?= 0)%Z with
                | Gt => "(+" ++ numToString d ++ ")"
                | Lt => "(" ++ numToString d ++ ")"
                | Eq => ""
                end
            | None => ""
            end)
      by (destruct (nth_error revisions (S index));
          [now rewrite historyDiffText_cases | reflexivity]).
    destruct (Revision.comment rev); reflexivity. }
  split; [|split; [|split; [|split]]].
  - unfold get_page_history, bind.
    destruct (getPageHistory net client title (Some (defaultArg 20 limit)))
      as [[|rev revisions]|e]; try reflexivity.
    rewrite forEach_append.
    rewrite (entriesFrom_ext _ _ _ (E (rev :: revisions))).
    now rewrite !append_assoc.
  - intros before rev next after d. unfold delta.
    replace (nth_error (before ++ rev :: next :: after) (S (List.length before)))
      with (Some next); [reflexivity|].
    symmetry. rewrite nth_error_app2 by lia.
    now replace (S (List.length before) - List.length before)%nat with 1%nat
      by lia.
  - intros before rev. unfold delta.
    replace (nth_error (before ++ [rev]) (S (List.length before)))
      with (@None Revision.t); [reflexivity|].
    symmetry. apply nth_error_None. rewrite List.length_app. simpl. lia.
  - intros e a b c. simpl. now rewrite append_nil_r.
  - vm_compute. reflexivity.
Qed.

Lemma changeDiffText_cases (d : Z) :
  changeDiffText d
  = match (d ?= 0)%Z with
    | Gt => "+" ++ numToString d
    | Eq => "0"
    | Lt => "-" ++ numToString (- d)
    end.
Proof.
  unfold changeDiffText.
  destruct (Z.compare_spec d 0) as [E|L|G].
  - subst d. reflexivity.
  - replace (0 <? d) with false by (symmetry; apply Z.ltb_ge; lia).
    now apply numToString_negative.
  - now replace (0 <? d) with true by (symmetry; apply Z.ltb_lt; lia).
Qed.

(** C6.  The text of [get_recent_changes] is its heading followed by
    one entry for every change of the reply, in order and numbered from
    1.  The fourth line of an entry reads [Size change: <delta> bytes],
    the delta being [newlen - oldlen] printed with a leading [+] when
    positive, as [0] when zero and with its minus sign when negative,
    and with no parenthesis in any case.  From 100 to 80 bytes it reads
    [-20], from 100 to 150 bytes [+50]. *)
Theorem recent_changes_delta_rendering
    (limit namespace : option Z) (type : option string) :
  let shown (change : RecentChange.t) :=
    let d := RecentChange.newlen change - RecentChange.oldlen change in
    match (d ?= 0)%Z with
    | Gt => "+" ++ numToString d
    | Eq => "0"
    | Lt => "-" ++ numToString (- d)
    end in
  let entry (change : RecentChange.t) (index : nat) :=
    numToString (Z.of_nat index + 1)
    ++ ". [" ++ toUpperCase (RecentChange.type change) ++ "] **"
    ++ RecentChange.title change ++ "** - "
    ++ formatTimestamp host (RecentChange.timestamp change) ++ nl
    ++ "   By: " ++ RecentChange.user change ++ nl
    ++ "   Comment: "
    ++ match RecentChange.comment change with
       | "" => "No comment"
       | comment => comment
       end ++ nl
    ++ "   Size change: " ++ shown change ++ " bytes" ++ nl
    ++ "   URL: " ++ getPageUrl client (RecentChange.title change)
    ++ nl ++ nl in
  get_recent_changes net host client limit namespace type
  = match getRecentChanges net client (Some (defaultArg 20 limit))
            namespace type with
    | Throw e => Throw e
    | Ok [] => Ok (textResult "No recent changes found")
    | Ok changes =>
        Ok (textResult
              ("# Recent Changes" ++ nl ++ nl ++ entriesFrom entry 0 changes))
    end
  /\ (forall change,
        contains "(" (shown change) = false
        /\ contains ")" (shown change) = false)
  /\ (forall (entry : RecentChange.t -> nat -> string) a b,
        entriesFrom entry 0 [a; b] = entry a 0%nat ++ entry b 1%nat)
  /\ get_recent_changes MoreExamples.netTwoChanges Examples.hostUtc
       Examples.wiki None None None
     = Ok (textResult
             ("# Recent Changes" ++ nl ++ nl
              ++ "1. [EDIT] **Main Page** - Jan 5, 2024, 03:07 PM" ++ nl
              ++ "   By: Alice" ++ nl
              ++ "   Comment: No comment" ++ nl
              ++ "   Size change: -20 bytes" ++ nl
              ++ "   URL: https://wiki.example.com/index.php/Main_Page"
              ++ nl ++ nl
              ++ "2. [EDIT] **Main Page** - Jan 5, 2024, 03:07 PM" ++ nl
              ++ "   By: Alice" ++ nl
              ++ "   Comment: No comment" ++ nl
              ++ "   Size change: +50 bytes" ++ nl
              ++ "   URL: https://wiki.example.com/index.php/Main_Page"
              ++ nl ++ nl)).
Proof.
  intros shown entry.
  assert (S : forall change,
            changeDiffText (changeSizeDiff change) = shown change)
    by (intros change; apply changeDiffText_cases).
  assert (E : forall change index,
            changeEntry host client change index = entry change index).
  { intros change index.
    unfold changeEntry, changeLines, entry, ordinal. rewrite S.
    destruct (RecentChange.comment change); reflexivity. }
  split; [|split; [|split]].
  - unfold get_recent_changes, bind.
    destruct (getRecentChanges net client (Some (defaultArg 20 limit))
                namespace type) as [[|change changes]|e]; try reflexivity.
    rewrite forEach_append. rewrite (entriesFrom_ext _ _ _ E).
    now rewrite !append_assoc.
  - intros change. rewrite <- S. unfold changeDiffText.
    destruct (numToString_no_paren (changeSizeDiff change)) as [Ho Hc].
    destruct (0 <? changeSizeDiff change); simpl; auto.
  - intros e a b. simpl. now rewrite append_nil_r.
  - vm_compute. reflexivity.
Qed.

(** C7.  The text of [search_pages] is its heading followed by one
    entry for every result, in order and numbered from 1; the third line
    of an entry reads [Snippet: ] followed by the snippet with its tags
    stripped.  Whatever the snippet, no piece delimited by [<] and [>]
    is left in what is shown; where a tag begins outside of any tag it
    goes away whole, up to its first [>], and the text before it stays;
    text without [<] is shown as it is.  The snippet
    [<span>hello</span> world] is shown as [hello world]. *)
Theorem search_snippet_tags_stripped
    (query : string) (limit namespace : option Z) :
  let entry (result : SearchResult.t) (index : nat) :=
    numToString (Z.of_nat index + 1)
    ++ ". **" ++ SearchResult.title result ++ "**" ++ nl
    ++ "   URL: " ++ getPageUrl client (SearchResult.title result) ++ nl
    ++ "   Snippet: " ++ stripTags (SearchResult.snippet result) ++ nl
    ++ "   Size: " ++ numToString (SearchResult.size result)
    ++ " bytes | Words: " ++ numToString (SearchResult.wordcount result)
    ++ " | Modified: "
    ++ formatTimestamp host (SearchResult.timestamp result) ++ nl ++ nl in
  search_pages net host client query limit namespace
  = match searchPages net client query (Some (defaultArg 10 limit))
            namespace with
    | Throw e => Throw e
    | Ok [] => Ok (textResult ("No results found for " ++ dq ++ query ++ dq))
    | Ok results =>
        Ok (textResult
              ("Found " ++ numToString (Z.of_nat (List.length results))
               ++ " results for " ++ dq ++ query ++ dq ++ ":" ++ nl ++ nl
               ++ entriesFrom entry 0 results))
    end
  /\ (forall snippet a b c,
        stripTags snippet <> a ++ "<" ++ b ++ ">" ++ c)
  /\ (forall pre body post,
        contains "<" pre = false -> contains ">" body = false ->
        stripTags (pre ++ "<" ++ body ++ ">" ++ post) = pre ++ stripTags post)
  /\ (forall snippet, contains "<" snippet = false -> stripTags snippet = snippet)
  /\ stripTags "<span>hello</span> world" = "hello world"
  /\ (forall (entry : SearchResult.t -> nat -> string) a b,
        entriesFrom entry 0 [a; b] = entry a 0%nat ++ entry b 1%nat)
  /\ search_pages MoreExamples.netSearch Examples.hostUtc Examples.wiki
       "hello" None None
     = Ok (textResult
             ("Found 1 results for " ++ dq ++ "hello" ++ dq ++ ":" ++ nl ++ nl
              ++ "1. **Main Page**" ++ nl
              ++ "   URL: https://wiki.example.com/index.php/Main_Page" ++ nl
              ++ "   Snippet: hello world" ++ nl
              ++ "   Size: 11 bytes | Words: 2 | Modified: "
              ++ "Jan 5, 2024, 03:07 PM" ++ nl ++ nl)).
Proof.
  intros entry.
  split; [|split; [|split; [|split; [|split; [|split]]]]].
  - unfold search_pages, bind.
    destruct (searchPages net client query (Some (defaultArg 10 limit))
                namespace) as [[|r rs]|e]; try reflexivity.
    rewrite forEach_append. now rewrite !append_assoc.
  - intros snippet a b c. apply stripTags_tag_free.
  - intros pre body post. apply stripTags_tag.
  - apply stripTags_plain.
  - reflexivity.
  - intros e a b. simpl. now rewrite append_nil_r.
  - vm_compute. reflexivity.
Qed.

End ToolFacts.

(** ** The client *)

Section ClientFacts.

Import Axios MediaWikiClient Operation.

Variable net : Axios.Network.
Variable host : Date.Host.
Variable this : MediaWikiClient.t.

Lemma apiRequest_fulfilled (params : Params) (data : Api.Response) :
  Axios.get net (axios this) (requestParams params) = Fulfilled data ->
  apiRequest net this params = Ok data.
Proof. unfold apiRequest. now intros ->. Qed.

Lemma apiRequest_axios_error (params : Params) (err : AxiosError) :
  Axios.get net (axios this) (requestParams params) = RejectedAxios err ->
  apiRequest net this params
  = Throw (Error ("MediaWiki API error: "
                  ++ optOr (errorInfo err) (message err))).
Proof. unfold apiRequest. now intros ->. Qed.

(** A value thrown by the HTTP layer that is not an axios error goes
    through [apiRequest] unchanged. *)
Lemma apiRequest_other_error (params : Params) (e : Exn) :
  Axios.get net (axios this) (requestParams params) = RejectedOther e ->
  apiRequest net this params = Throw e.
Proof. unfold apiRequest. now intros ->. Qed.

(** No operation catches what [apiRequest] throws. *)
Lemma run_propagates (call : Call) (e : Exn) :
  apiRequest net this (paramsOf call) = Throw e ->
  run net this call = Throw e.
Proof.
  destruct call; simpl; intros H;
    unfold searchPages, getPage, getParsedPage, getPageHistory,
      listCategories, getCategoryMembers, getRecentChanges, getPageLinks,
      getBacklinks;
    now rewrite H.
Qed.

Lemma errorInfo_present (err : AxiosError) resp body payload info :
  response err = Some resp -> data resp = Some body ->
  Api.error body = Some payload -> Api.info payload = Some info ->
  errorInfo err = Some info.
Proof.
  intros H1 H2 H3 H4. unfold errorInfo. rewrite H1. simpl.
  rewrite H2. simpl. rewrite H3. simpl. exact H4.
Qed.

(** C1, as the code has it.  When the request of an operation fails in
    the HTTP layer, the operation throws one [Error] whose message is
    [MediaWiki API error: ] followed by the error description of the
    remote service when the failing reply carries a non-empty one, and by
    the message of the transport error otherwise.  The operation returns
    no value in that case. *)
Theorem transport_failure_is_uniform (call : Call) (err : AxiosError) :
  Axios.get net (axios this) (requestParams (paramsOf call))
  = RejectedAxios err ->
  exists description,
    run net this call
    = Throw (Error ("MediaWiki API error: " ++ description))
    /\ (forall resp body payload info,
          response err = Some resp -> data resp = Some body ->
          Api.error body = Some payload -> Api.info payload = Some info ->
          info <> "" -> description = info)
    /\ (errorInfo err = None \/ errorInfo err = Some "" ->
        description = message err).
Proof.
  intros H. exists (optOr (errorInfo err) (message err)).
  split; [|split].
  - apply run_propagates. now apply apiRequest_axios_error.
  - intros resp body payload info H1 H2 H3 H4 Hne.
    rewrite (errorInfo_present _ _ _ _ _ H1 H2 H3 H4).
    destruct info; [contradiction | reflexivity].
  - intros [-> | ->]; reflexivity.
Qed.

(** C3.  When the reply flags the page as missing, [getPage] returns
    [null] and [get_page] answers with the text [Page "<title>" not
    found], as an ordinary result. *)
Theorem missing_page_is_not_found
    (title : string) (include_html : option bool)
    (data : Api.Response) (q : Api.Query)
    (page : Api.Page) (rest : list Api.Page) :
  Axios.get net (axios this) (requestParams (getPageParams title))
  = Fulfilled data ->
  Api.query data = Some q ->
  Api.pages q = Some (page :: rest) ->
  Api.missing page = Some true ->
  getPage net this title = Ok None
  /\ Tools.get_page net host this title include_html
     = Ok (Tools.textResult ("Page " ++ dq ++ title ++ dq ++ " not found")).
Proof.
  intros Hget Hq Hp Hm.
  assert (G : getPage net this title = Ok None).
  { unfold getPage. rewrite (apiRequest_fulfilled _ _ Hget). simpl.
    unfold firstPage. rewrite Hq. simpl. rewrite Hp. now rewrite Hm. }
  split; [exact G|].
  unfold Tools.get_page. now rewrite G.
Qed.

(** C8.  For a page that exists, [getPage] returns a record whatever
    optional parts the reply leaves out.  The body is the empty string
    when the page has no revision, or its first revision has no slots, no
    main slot or no content; the categories are the empty list when the
    page has none; the size is zero when the length is left out; time
    stamp, user and comment are empty when there is no revision. *)
Theorem getPage_defaults
    (title : string) (data : Api.Response) (q : Api.Query)
    (page : Api.Page) (rest : list Api.Page) :
  Axios.get net (axios this) (requestParams (getPageParams title))
  = Fulfilled data ->
  Api.query data = Some q ->
  Api.pages q = Some (page :: rest) ->
  Api.missing page <> Some true ->
  exists result,
    getPage net this title = Ok (Some result)
    /\ PageContent.pageid result = Api.pageid page
    /\ PageContent.title result = Api.page_title page
    /\ ((Api.revisions page = None
         \/ Api.revisions page = Some []
         \/ exists rev revs,
              Api.revisions page = Some (rev :: revs)
              /\ (Revision.slots rev = None
                  \/ exists slots,
                       Revision.slots rev = Some slots
                       /\ (Slots.main slots = None
                           \/ Slots.main slots
                              = Some {| Slots.content := None |}))) ->
        PageContent.content result = "")
    /\ (Api.revisions page = None \/ Api.revisions page = Some [] ->
        PageContent.timestamp result = ""
        /\ PageContent.user result = ""
        /\ PageContent.comment result = "")
    /\ (Api.categories page = None -> PageContent.categories result = [])
    /\ (Api.length page = None -> PageContent.size result = 0).
Proof.
  intros Hget Hq Hp Hm. exists (pageContent page).
  split.
  { unfold getPage. rewrite (apiRequest_fulfilled _ _ Hget). simpl.
    unfold firstPage. rewrite Hq. simpl. rewrite Hp.
    destruct (Api.missing page) as [[|]|]; congruence. }
  split; [reflexivity|]. split; [reflexivity|].
  unfold pageContent; simpl.
  split; [|split; [|split]].
  - intros [Hr | [Hr | (rev & revs & Hr & Hs)]];
      rewrite Hr; simpl; try reflexivity.
    destruct Hs as [Hs | (slots & Hs & [Hm' | Hm'])];
      rewrite Hs; simpl; try reflexivity; now rewrite Hm'.
  - intros [-> | ->]; auto.
  - now intros ->.
  - now intros ->.
Qed.

Lemma categoryTitle_prefixed (category : string) :
  categoryTitle ("Category:" ++ category) = "Category:" ++ category.
Proof. reflexivity. Qed.

Lemma categoryTitle_bare (category : string) :
  startsWith "Category:" category = false ->
  categoryTitle category = "Category:" ++ category.
Proof. unfold categoryTitle. now intros ->. Qed.

(** The normalisation changes nothing the second time. *)
Lemma categoryTitle_idempotent (category : string) :
  categoryTitle (categoryTitle category) = categoryTitle category.
Proof.
  destruct (startsWith "Category:" category) eqn:E.
  - unfold categoryTitle. now rewrite !E.
  - rewrite (categoryTitle_bare _ E). apply categoryTitle_prefixed.
Qed.

(** [apiRequest] settles as the GET with the merged parameters does. *)
Lemma apiRequest_settles (params : Params) :
  apiRequest net this params
  = match Axios.get net (axios this) (requestParams params) with
    | Fulfilled data => Ok data
    | RejectedAxios err =>
        Throw (Error ("MediaWiki API error: "
                      ++ optOr (errorInfo err) (message err)))
    | RejectedOther e => Throw e
    end.
Proof. reflexivity. Qed.

(** C5.  For a name that does not start with [Category:], the call with
    the bare name and the call with the prefixed name make the same
    request: one GET whose parameters are the fixed ones, [cmtitle]
    being [Category:] followed by the name, the limit (50 if left out)
    and the type when a non-empty one is given.  Both calls return the
    members of the reply to that request, or fail as it fails; they
    build the same parameters and give the same result. *)
Theorem category_prefix_normalised
    (foo : string) (limit : option Z) (type : option string) :
  startsWith "Category:" foo = false ->
  let request :=
    ([("format", PStr "json");
      ("formatversion", PNum 2);
      ("action", PStr "query");
      ("list", PStr "categorymembers");
      ("cmtitle", PStr ("Category:" ++ foo));
      ("cmlimit", PNum match limit with Some n => n | None => 50 end);
      ("cmprop", PStr "ids|title|timestamp")]
     ++ match type with
        | Some (String c ty) => [("cmtype", PStr (String c ty))]
        | _ => []
        end)%list in
  let outcome :=
    match Axios.get net (axios this) request with
    | Fulfilled data =>
        Ok match Api.query data with
           | Some q =>
               match Api.categorymembers q with
               | Some members => members
               | None => []
               end
           | None => []
           end
    | RejectedAxios err =>
        Throw (Error ("MediaWiki API error: "
                      ++ optOr (errorInfo err) (message err)))
    | RejectedOther e => Throw e
    end in
  getCategoryMembers net this foo limit type = outcome
  /\ getCategoryMembers net this ("Category:" ++ foo) limit type = outcome
  /\ requestParams (getCategoryMembersParams foo limit type) = request
  /\ requestParams (getCategoryMembersParams ("Category:" ++ foo) limit type)
     = request
  /\ getCategoryMembersParams foo limit type
     = getCategoryMembersParams ("Category:" ++ foo) limit type.
Proof.
  intros H request outcome.
  assert (E : getCategoryMembersParams foo limit type
              = getCategoryMembersParams ("Category:" ++ foo) limit type).
  { unfold getCategoryMembersParams.
    now rewrite (categoryTitle_bare _ H), categoryTitle_prefixed. }
  assert (R : requestParams (getCategoryMembersParams foo limit type)
              = request).
  { unfold getCategoryMembersParams, request.
    rewrite (categoryTitle_bare _ H).
    destruct limit, type as [[|c ty]|]; reflexivity. }
  assert (G : getCategoryMembers net this foo limit type = outcome).
  { unfold getCategoryMembers. rewrite apiRequest_settles, R.
    unfold outcome.
    destruct (Axios.get net (axios this) request) as [data|err|e];
      try reflexivity.
    simpl. destruct (Api.query data) as [q|]; [|reflexivity].
    simpl. destruct (Api.categorymembers q); reflexivity. }
  split; [exact G|].
  split; [unfold getCategoryMembers; rewrite <- E; exact G|].
  split; [exact R|]. split; [now rewrite <- E|exact E].
Qed.

End ClientFacts.

(** ** The two helpers without a remote call *)

Section HelperFacts.

Import MediaWikiClient.

Lemma replaceSpaces_no_space (s : string) :
  contains " " (replaceSpaces s) = false.
Proof.
  induction s as [|c s IH]; simpl; [reflexivity|].
  rewrite IH, orb_false_r.
  destruct (Ascii.eqb c " ") eqn:E; [reflexivity | exact E].
Qed.

Lemma replaceSpaces_is_variant (s : string) :
  SpaceVariant s (replaceSpaces s).
Proof.
  induction s as [|c s IH]; simpl; [constructor|].
  destruct (Ascii.eqb c " ") eqn:E.
  - apply Ascii.eqb_eq in E. subst c. now constructor.
  - now constructor.
Qed.

(** C4, as the code has it.  [getPageUrl] is the base address of the
    client (the configured one without its trailing slash), then
    [/index.php/], then the percent-encoding of the title in which every
    space is replaced by an underscore.  Decoding that last segment gives
    the title with the underscores in place of the spaces: the title
    itself when it has no space.  [Main Page] ends in [Main_Page];
    [C++] is encoded as [C%2B%2B] and decodes to [C++]. *)
Theorem getPageUrl_encodes_title
    (config : MediaWikiConfig.t) (this : MediaWikiClient.t) (title : string) :
  let segment := encodeURIComponent (replaceSpaces title) in
  getPageUrl this title = baseUrl this ++ "/index.php/" ++ segment
  /\ baseUrl (MediaWikiClient.new config)
     = stripTrailingSlash (MediaWikiConfig.baseUrl config)
  /\ SpaceVariant title (replaceSpaces title)
  /\ contains " " (replaceSpaces title) = false
  /\ percentDecode segment = Some (replaceSpaces title)
  /\ (contains " " title = false -> percentDecode segment = Some title)
  /\ getPageUrl Examples.wiki "Main Page"
     = "https://wiki.example.com/index.php/Main_Page"
  /\ getPageUrl Examples.wiki "C++"
     = "https://wiki.example.com/index.php/C%2B%2B"
  /\ percentDecode "C%2B%2B" = Some "C++".
Proof.
  repeat split.
  - apply replaceSpaces_is_variant.
  - apply replaceSpaces_no_space.
  - apply percentDecode_encodeURIComponent.
  - intros H. rewrite percentDecode_encodeURIComponent.
    now rewrite (replaceSpaces_plain _ H).
Qed.

(** C10.  Two titles that differ only by spaces against underscores get
    the same address, [Main Page] and [Main_Page] for instance, so no
    reading of the address gives back the title in every case. *)
Theorem getPageUrl_merges_space_variants (this : MediaWikiClient.t) :
  (forall t1 t2, SpaceVariant t1 t2 -> getPageUrl this t1 = getPageUrl this t2)
  /\ "Main Page" <> "Main_Page"
  /\ getPageUrl this "Main Page" = getPageUrl this "Main_Page"
  /\ ~ (exists decode : string -> string,
          forall title, decode (getPageUrl this title) = title).
Proof.
  split; [|split; [|split]].
  - intros t1 t2 H. unfold getPageUrl.
    now rewrite (replaceSpaces_variant _ _ H).
  - discriminate.
  - reflexivity.
  - intros [decode H].
    assert (E : "Main Page" = "Main_Page").
    { rewrite <- (H "Main Page"), <- (H "Main_Page"). reflexivity. }
    discriminate E.
Qed.

End HelperFacts.

(** ** Worked examples *)

Section WorkedExamples.

Import Axios MediaWikiClient Operation Examples.

(** C1 as the specification words it fails: a reply with a success
    status whose body is an error payload is handed on as data, and
    [searchPages] turns it into the empty list. *)
Lemma embedded_error_payload_is_not_raised :
  Axios.get netErrorReply (axios wiki)
    (requestParams (paramsOf (SearchPages "zzzz" None None)))
  = Fulfilled errorReply
  /\ Api.error errorReply
     = Some {| Api.code := Some "badvalue";
               Api.info := Some "Unrecognized value for parameter." |}
  /\ run netErrorReply wiki (SearchPages "zzzz" None None) = Ok (Results [])
  /\ ~ (forall net this call data payload,
          Axios.get net (axios this) (requestParams (paramsOf call))
          = Fulfilled data ->
          Api.error data = Some payload ->
          exists e, run net this call = Throw e).
Proof.
  split; [reflexivity|]. split; [reflexivity|]. split; [reflexivity|].
  intros H.
  destruct (H netErrorReply wiki (SearchPages "zzzz" None None)
              errorReply _ eq_refl eq_refl) as [e He].
  discriminate He.
Qed.

Lemma transport_failure_example :
  exists description,
    run netServerError wiki (GetPage "Main Page")
    = Throw (Error ("MediaWiki API error: " ++ description))
    /\ (forall resp body payload info,
          response serverError = Some resp -> data resp = Some body ->
          Api.error body = Some payload -> Api.info payload = Some info ->
          info <> "" -> description = info)
    /\ (errorInfo serverError = None \/ errorInfo serverError = Some "" ->
        description = message serverError).
Proof.
  apply (transport_failure_is_uniform netServerError wiki
           (GetPage "Main Page") serverError).
  reflexivity.
Defined.

Lemma missing_page_example :
  getPage netMissing wiki "No Such Page" = Ok None
  /\ Tools.get_page netMissing hostUtc wiki "No Such Page" None
     = Ok (Tools.textResult
             ("Page " ++ dq ++ "No Such Page" ++ dq ++ " not found")).
Proof.
  apply (missing_page_is_not_found netMissing hostUtc wiki "No Such Page" None
           (reply (pagesQuery [missingPage])) (pagesQuery [missingPage])
           missingPage []);
    reflexivity.
Defined.

Lemma getPage_defaults_example :
  exists result,
    getPage netBare wiki "Stub" = Ok (Some result)
    /\ PageContent.content result = ""
    /\ PageContent.categories result = []
    /\ PageContent.size result = 0.
Proof.
  destruct (getPage_defaults netBare wiki "Stub"
              (reply (pagesQuery [barePage])) (pagesQuery [barePage])
              barePage [] eq_refl eq_refl eq_refl)
    as (result & Hr & _ & _ & Hc & _ & Hcat & Hlen).
  - discriminate.
  - exists result. split; [exact Hr|]. split; [|split].
    + apply Hc. left. reflexivity.
    + apply Hcat. reflexivity.
    + apply Hlen. reflexivity.
Defined.

Lemma category_prefix_example :
  getCategoryMembers netMissing wiki "Foo" (Some 50) None
  = getCategoryMembers netMissing wiki "Category:Foo" (Some 50) None
  /\ requestParams (getCategoryMembersParams "Foo" (Some 50) None)
     = [("format", PStr "json");
        ("formatversion", PNum 2);
        ("action", PStr "query");
        ("list", PStr "categorymembers");
        ("cmtitle", PStr "Category:Foo");
        ("cmlimit", PNum 50);
        ("cmprop", PStr "ids|title|timestamp")].
Proof.
  destruct (category_prefix_normalised netMissing wiki "Foo" (Some 50) None
              eq_refl) as (Hb & Hp & Hr & _).
  split; [exact (eq_trans Hb (eq_sym Hp)) | exact Hr].
Defined.

Lemma search_snippet_example :
  stripTags ("see " ++ "<" ++ "b class=x" ++ ">" ++ "bold</b>")
  = "see " ++ stripTags "bold</b>"
  /\ stripTags "1 < 2" = "1 < 2"
  /\ stripTags "no markup" = "no markup".
Proof.
  destruct (search_snippet_tags_stripped netMissing hostUtc wiki "q" None None)
    as (_ & _ & Htag & Hplain & _).
  split; [|split].
  - apply (Htag "see " "b class=x" "bold</b>"); reflexivity.
  - reflexivity.
  - apply (Hplain "no markup"). reflexivity.
Defined.

(** C4 as the specification words it fails: a title with a space and a
    character to escape does not come back from its address. *)
Lemma getPageUrl_decoding_loses_the_space :
  getPageUrl wiki "C++ Primer"
  = "https://wiki.example.com/index.php/C%2B%2B_Primer"
  /\ percentDecode (encodeURIComponent (replaceSpaces "C++ Primer"))
     = Some "C++_Primer"
  /\ percentDecode (encodeURIComponent (replaceSpaces "C++ Primer"))
     <> Some "C++ Primer".
Proof. split; [reflexivity|]. split; [reflexivity | discriminate]. Qed.

Lemma getPageUrl_example :
  contains " " "C++" = false
  /\ percentDecode (encodeURIComponent (replaceSpaces "C++")) = Some "C++".
Proof.
  split; [reflexivity|].
  destruct (getPageUrl_encodes_title config wiki "C++")
    as (_ & _ & _ & _ & _ & H & _).
  apply H. reflexivity.
Defined.

Lemma space_variant_example :
  SpaceVariant "Main Page" "Main_Page"
  /\ getPageUrl wiki "Main Page" = getPageUrl wiki "Main_Page".
Proof.
  assert (V : SpaceVariant "Main Page" "Main_Page") by repeat constructor.
  split; [exact V|].
  destruct (getPageUrl_merges_space_variants wiki) as (H & _).
  exact (H _ _ V).
Defined.

(** [toLocaleString] is called without a [timeZone] option: in the
    model of the runtime the same timestamp reads differently on a host
    in UTC and on a host nine hours east of it. *)
Lemma formatTimestamp_depends_on_the_host_zone :
  formatTimestamp hostUtc "2024-01-01T20:30:00Z" = "Jan 1, 2024, 08:30 PM"
  /\ formatTimestamp hostTokyo "2024-01-01T20:30:00Z"
     = "Jan 2, 2024, 05:30 AM"
  /\ formatTimestamp hostUtc "2024-01-01T20:30:00Z"
     <> formatTimestamp hostTokyo "2024-01-01T20:30:00Z".
Proof.
  split; [vm_compute; reflexivity|]. split; [vm_compute; reflexivity|].
  vm_compute. discriminate.
Qed.


End WorkedExamples.

(** ** The model of the runtime on concrete values *)

Section RuntimeChecks.

Import MediaWikiClient Examples.

Example numToString_values :
  numToString 0 = "0" /\ numToString 80 = "80" /\ numToString (-20) = "-20".
Proof. repeat split. Qed.

Example stripTags_values :
  stripTags "a <b>bold</b> <i>word" = "a bold word"
  /\ stripTags "2 < 3" = "2 < 3"
  /\ stripTags "x <a href='y>z'>w</a>" = "x z'>w".
Proof. repeat split. Qed.

Example encodeURIComponent_values :
  encodeURIComponent "Main_Page" = "Main_Page"
  /\ encodeURIComponent "A/B?c=d&e" = "A%2FB%3Fc%3Dd%26e"
  /\ encodeURIComponent "it's (ok)!" = "it's%20(ok)!".
Proof. repeat split. Qed.

Example stripTrailingSlash_values :
  stripTrailingSlash "https://wiki.example.com/" = "https://wiki.example.com"
  /\ stripTrailingSlash "https://wiki.example.com" = "https://wiki.example.com"
  /\ stripTrailingSlash "a//" = "a/".
Proof. repeat split. Qed.

Example formatTimestamp_values :
  formatTimestamp hostUtc "2024-02-29T00:07:59Z" = "Feb 29, 2024, 12:07 AM"
  /\ formatTimestamp hostUtc "1999-12-31T23:59:59Z" = "Dec 31, 1999, 11:59 PM"
  /\ formatTimestamp hostUtc "2023-02-29T12:00:00Z" = "Invalid Date"
  /\ formatTimestamp hostUtc "" = "Invalid Date".
Proof. repeat split; vm_compute; reflexivity. Qed.

(** The two calendar conversions agree on every 61st day from 1970 to
    2100, and the dates they give are dates of the calendar. *)
Example civil_days_agree :
  forallb
    (fun n =>
       let z := 61 * Z.of_nat n in
       let '(y, m, d) := Date.civilFromDays z in
       (Date.daysFromCivil y m d =? z)
       && (1 <=? m) && (m <=? 12) && (1 <=? d) && (d <=? Date.daysInMonth y m))
    (seq 0 780)
  = true.
Proof. vm_compute. reflexivity. Qed.

End RuntimeChecks.

(* ================================================================== *)
(** * Further properties of the code *)

(** ** Strings and addresses *)

Section MoreStringFacts.

Import MediaWikiClient.

Lemma append_inj_l (a x y : string) : a ++ x = a ++ y -> x = y.
Proof.
  induction a as [|c a IH]; simpl; intros H; [exact H|].
  injection H as H. exact (IH H).
Qed.

Lemma encodeURIComponent_injective (a b : string) :
  encodeURIComponent a = encodeURIComponent b -> a = b.
Proof.
  intros H.
  assert (E : Some a = Some b).
  { rewrite <- (percentDecode_encodeURIComponent a),
            <- (percentDecode_encodeURIComponent b).
    now rewrite H. }
  now injection E.
Qed.

Lemma replaceSpaces_eq_variant (a : string) :
  forall b, replaceSpaces a = replaceSpaces b -> SpaceVariant a b.
Proof.
  induction a as [|c a IH]; intros [|d b] H; simpl in H; try discriminate.
  - constructor.
  - injection H as Hc Hr. specialize (IH _ Hr).
    destruct (Ascii.eqb c " ") eqn:Ec; destruct (Ascii.eqb d " ") eqn:Ed.
    + apply Ascii.eqb_eq in Ec, Ed. subst. now constructor.
    + apply Ascii.eqb_eq in Ec. subst c d. now constructor.
    + apply Ascii.eqb_eq in Ed. subst c d. now constructor.
    + subst d. now constructor.
Qed.

Lemma stripTrailingSlash_app_slash (s : string) :
  stripTrailingSlash (s ++ "/") = s.
Proof.
  induction s as [|c s IH]; [reflexivity|].
  change ((String c s) ++ "/") with (String c (s ++ "/")).
  cbn [stripTrailingSlash]. rewrite IH.
  destruct s; reflexivity.
Qed.

Lemma stripTrailingSlash_cases (s : string) :
  s = stripTrailingSlash s \/ s = stripTrailingSlash s ++ "/".
Proof.
  induction s as [|c s IH]; [now left|].
  destruct s as [|d s].
  - cbn [stripTrailingSlash].
    destruct (Ascii.eqb c "/") eqn:E; [|now left].
    apply Ascii.eqb_eq in E. subst c. now right.
  - change (stripTrailingSlash (String c (String d s)))
      with (String c (stripTrailingSlash (String d s))).
    destruct IH as [IH|IH]; [left|right].
    + now rewrite <- IH.
    + change (String c (stripTrailingSlash (String d s)) ++ "/")
        with (String c (stripTrailingSlash (String d s) ++ "/")).
      now rewrite <- IH.
Qed.

Lemma allChars_contains (p : ascii -> bool) (x : ascii) (s : string) :
  allChars p s = true -> p x = false -> contains x s = false.
Proof.
  induction s as [|c s IH]; simpl; intros H Hx; [reflexivity|].
  apply andb_true_iff in H as [Hc Hs]. rewrite (IH Hs Hx), orb_false_r.
  destruct (Ascii.eqb c x) eqn:E; [|reflexivity].
  apply Ascii.eqb_eq in E. congruence.
Qed.

Lemma allChars_app (p : ascii -> bool) (a b : string) :
  allChars p (a ++ b) = allChars p a && allChars p b.
Proof.
  induction a as [|c a IH]; simpl; [reflexivity|].
  now rewrite IH, andb_assoc.
Qed.

Lemma escapeByte_escaped (c : ascii) :
  allChars isEscapedChar (escapeByte c) = true.
Proof. destruct c as [[] [] [] [] [] [] [] []]; vm_compute; reflexivity. Qed.

Lemma encodeURIComponent_escaped (s : string) :
  allChars isEscapedChar (encodeURIComponent s) = true.
Proof.
  induction s as [|c s IH]; [reflexivity|].
  cbn [encodeURIComponent]. destruct (uriUnreserved c) eqn:E.
  - cbn [allChars]. rewrite IH. unfold isEscapedChar. now rewrite E.
  - now rewrite allChars_app, escapeByte_escaped, IH.
Qed.

(** A string in which no [<] has a [>] after it is left as it is. *)
Lemma scanTags_unclosed (s : string) :
  (forall a r, s = a ++ String "<" r -> contains ">" r = false) ->
  scanTags false s = s.
Proof.
  induction s as [|c s IH]; intros H; [reflexivity|].
  cbn [scanTags].
  assert (Hs : scanTags false s = s).
  { apply IH. intros a r E. apply (H (String c a) r). simpl. now rewrite E. }
  destruct (Ascii.eqb c "<") eqn:E.
  - apply Ascii.eqb_eq in E. subst c.
    rewrite (H "" s eq_refl). simpl. now rewrite Hs.
  - simpl. now rewrite Hs.
Qed.

Lemma scanTags_length (s : string) :
  forall inTag,
    (String.length (scanTags inTag s) <= String.length s)%nat.
Proof.
  induction s as [|c s IH]; intros inTag; simpl; [lia|].
  destruct inTag.
  - destruct (Ascii.eqb c ">"); [specialize (IH false) | specialize (IH true)];
      lia.
  - destruct (Ascii.eqb c "<" && contains ">" s).
    + specialize (IH true). lia.
    + simpl. specialize (IH false). lia.
Qed.

(** X1.  Stripping the tags of a snippet a second time changes nothing,
    and stripping never makes a snippet longer. *)
Theorem stripTags_idempotent (snippet : string) :
  stripTags (stripTags snippet) = stripTags snippet
  /\ (String.length (stripTags snippet) <= String.length snippet)%nat.
Proof.
  split; [|apply scanTags_length].
  unfold stripTags at 1. apply scanTags_unclosed.
  intros a r E. exact (scanTags_open_unclosed _ _ _ _ E).
Qed.

(** X2.  Two titles get the same address from [getPageUrl] exactly when
    they differ only by spaces against underscores; on titles without a
    space the address determines the title. *)
Theorem getPageUrl_same_iff_variant (this : MediaWikiClient.t)
    (t1 t2 : string) :
  (getPageUrl this t1 = getPageUrl this t2 <-> SpaceVariant t1 t2)
  /\ (contains " " t1 = false -> contains " " t2 = false ->
      getPageUrl this t1 = getPageUrl this t2 -> t1 = t2).
Proof.
  assert (R : getPageUrl this t1 = getPageUrl this t2 ->
              replaceSpaces t1 = replaceSpaces t2).
  { unfold getPageUrl. intros H.
    apply append_inj_l in H. apply (append_inj_l "/index.php/") in H.
    now apply encodeURIComponent_injective. }
  split; [split|].
  - intros H. apply replaceSpaces_eq_variant. exact (R H).
  - intros H. unfold getPageUrl. now rewrite (replaceSpaces_variant _ _ H).
  - intros H1 H2 H. apply R in H.
    now rewrite (replaceSpaces_plain _ H1), (replaceSpaces_plain _ H2) in H.
Qed.

(** X3.  The last segment of the address [getPageUrl] builds consists
    of unreserved characters and percent escapes only: whatever the
    title, it holds no space, slash, question mark, hash, ampersand,
    equals sign, plus sign or angle bracket. *)
Theorem getPageUrl_segment_is_escaped (this : MediaWikiClient.t)
    (title : string) :
  let segment := encodeURIComponent (replaceSpaces title) in
  getPageUrl this title = baseUrl this ++ "/index.php/" ++ segment
  /\ allChars isEscapedChar segment = true
  /\ forallb (fun x => negb (contains x segment))
       [" "; "/"; "?"; "#"; "&"; "="; "+"; "<"; ">"]%char = true.
Proof.
  intros segment. split; [reflexivity|].
  assert (A : allChars isEscapedChar segment = true)
    by apply encodeURIComponent_escaped.
  split; [exact A|].
  cbn [forallb].
  rewrite !(allChars_contains _ _ _ A) by reflexivity. reflexivity.
Qed.

(** X4.  The base address of the client is the configured one, less one
    trailing slash if it has one; a configured address [s/] gives the
    base [s], the endpoint [s/api.php] and page addresses under
    [s/index.php/]. *)
Theorem client_base_address
    (config : MediaWikiConfig.t) (s : string)
    (user pass token : option string) (title : string) :
  let slashed :=
    {| MediaWikiConfig.baseUrl := s ++ "/";
       MediaWikiConfig.username := user;
       MediaWikiConfig.password := pass;
       MediaWikiConfig.apiToken := token |} in
  (MediaWikiConfig.baseUrl config = baseUrl (MediaWikiClient.new config)
   \/ MediaWikiConfig.baseUrl config
      = baseUrl (MediaWikiClient.new config) ++ "/")
  /\ apiEndpoint (MediaWikiClient.new config)
     = baseUrl (MediaWikiClient.new config) ++ "/api.php"
  /\ Axios.baseURL (axios (MediaWikiClient.new config))
     = apiEndpoint (MediaWikiClient.new config)
  /\ baseUrl (MediaWikiClient.new slashed) = s
  /\ apiEndpoint (MediaWikiClient.new slashed) = s ++ "/api.php"
  /\ getPageUrl (MediaWikiClient.new slashed) title
     = s ++ "/index.php/" ++ encodeURIComponent (replaceSpaces title).
Proof.
  intros slashed. split; [apply stripTrailingSlash_cases|].
  split; [reflexivity|]. split; [reflexivity|].
  unfold getPageUrl, slashed, MediaWikiClient.new; cbn [baseUrl apiEndpoint
    MediaWikiConfig.baseUrl].
  now rewrite stripTrailingSlash_app_slash.
Qed.

(** X5.  The client never uses the user name and the password of the
    configuration.  It sends an [Authorization: Bearer] header exactly
    when the API token is present and not empty, beside its two fixed
    headers. *)
Theorem client_credentials
    (base : string) (user pass token : option string) :
  let config :=
    {| MediaWikiConfig.baseUrl := base;
       MediaWikiConfig.username := user;
       MediaWikiConfig.password := pass;
       MediaWikiConfig.apiToken := token |} in
  let fixed :=
    [("User-Agent", "MediaWiki-MCP/1.0.0"); ("Accept", "application/json")] in
  MediaWikiClient.new config
  = MediaWikiClient.new
      {| MediaWikiConfig.baseUrl := base;
         MediaWikiConfig.username := None;
         MediaWikiConfig.password := None;
         MediaWikiConfig.apiToken := token |}
  /\ (forall t, token = Some t -> t <> "" ->
        Axios.headers (axios (MediaWikiClient.new config))
        = List.app fixed [("Authorization", "Bearer " ++ t)])
  /\ (token = None \/ token = Some "" ->
      Axios.headers (axios (MediaWikiClient.new config)) = fixed).
Proof.
  intros config fixed. split; [reflexivity|]. split.
  - intros t -> Ht. destruct t; [contradiction | reflexivity].
  - intros [-> | ->]; reflexivity.
Qed.

End MoreStringFacts.

(** ** Requests and replies *)

Section MoreClientFacts.

Import Axios MediaWikiClient Operation.

Variable net : Axios.Network.
Variable this : MediaWikiClient.t.

Lemma emptyReply_lists (data : Api.Response) :
  emptyReply data ->
  chain (Api.query data) Api.search = None
  /\ firstPage data = None
  /\ chain (Api.query data) Api.allcategories = None
  /\ chain (Api.query data) Api.categorymembers = None
  /\ chain (Api.query data) Api.recentchanges = None
  /\ chain (Api.query data) Api.backlinks = None
  /\ optOr (chain (Api.parse data) Api.text) "" = "".
Proof.
  intros [[Hq | (q & Hq & Hs & Hp & Ha & Hm & Hr & Hb)] Ht];
    unfold firstPage; rewrite Hq; simpl.
  - repeat split; try reflexivity.
    destruct Ht as [-> | ->]; reflexivity.
  - rewrite Hs, Ha, Hm, Hr, Hb. repeat split; try reflexivity.
    + destruct Hp as [-> | ->]; reflexivity.
    + destruct Ht as [-> | ->]; reflexivity.
Qed.

(** X6.  When the reply to an operation reports nothing, the operation
    returns its empty value and raises no error: the empty list for the
    list operations, [null] for [getPage], the empty string for
    [getParsedPage]. *)
Theorem empty_reply_gives_defaults (call : Call) (data : Api.Response) :
  Axios.get net (axios this) (requestParams (paramsOf call)) = Fulfilled data ->
  emptyReply data ->
  run net this call
  = Ok match call with
       | SearchPages _ _ _ => Results []
       | GetPage _ => Page None
       | GetParsedPage _ => Html ""
       | GetPageHistory _ _ => Revisions []
       | ListCategories _ _ => Categories []
       | GetCategoryMembers _ _ _ => Members []
       | GetRecentChanges _ _ _ => Changes []
       | GetPageLinks _ _ => Titles []
       | GetBacklinks _ _ => Titles []
       end.
Proof.
  intros Hget He.
  destruct (emptyReply_lists _ He) as (Hs & Hp & Ha & Hm & Hr & Hb & Ht).
  destruct call; simpl in Hget; simpl;
    unfold searchPages, getPage, getParsedPage, getPageHistory,
      listCategories, getCategoryMembers, getRecentChanges, getPageLinks,
      getBacklinks;
    rewrite (apiRequest_fulfilled _ _ _ _ Hget); simpl;
    rewrite ?Hs, ?Hp, ?Ha, ?Hm, ?Hr, ?Hb, ?Ht; reflexivity.
Qed.

(** X7.  Every client operation makes one GET.  Its parameters begin
    with [format=json], [formatversion=2] and the action, [parse] for
    [getParsedPage] and [query] for the eight others, and no later
    parameter has one of these three keys.  The operation fails as that
    request fails, and otherwise its result is decided by the reply to
    it alone. *)
Theorem every_request_is_json_v2 (call : Call) :
  exists rest : Params,
    (forall key value,
       In (key, value) rest ->
       key <> "format" /\ key <> "formatversion" /\ key <> "action")
    /\ forall network : Axios.Network,
         run network this call
         = match Axios.get network (axios this)
                   ([("format", PStr "json");
                     ("formatversion", PNum 2);
                     ("action", PStr match call with
                                     | GetParsedPage _ => "parse"
                                     | _ => "query"
                                     end)] ++ rest)%list with
           | Fulfilled data => run (fun _ _ _ => Fulfilled data) this call
           | RejectedAxios err =>
               Throw (Error ("MediaWiki API error: "
                             ++ optOr (errorInfo err) (message err)))
           | RejectedOther e => Throw e
           end.
Proof.
  exists (tl (tl (tl (requestParams (paramsOf call))))).
  assert (R : requestParams (paramsOf call)
              = ([("format", PStr "json");
                  ("formatversion", PNum 2);
                  ("action", PStr match call with
                                  | GetParsedPage _ => "parse"
                                  | _ => "query"
                                  end)]
                 ++ tl (tl (tl (requestParams (paramsOf call)))))%list).
  { destruct call as [q l [n|] | t | t | t l | [[|c p]|] l
                      | c l [[|x ty]|] | l [n|] [[|x ty]|] | t l | t l];
      reflexivity. }
  split.
  - intros key value Hin.
    destruct call as [q l [n|] | t | t | t l | [[|c p]|] l
                      | c l [[|x ty]|] | l [n|] [[|x ty]|] | t l | t l];
      simpl in Hin;
      repeat (destruct Hin as [Hin|Hin];
              [injection Hin as <- _; repeat split; discriminate|]);
      contradiction.
  - intros network. rewrite <- R.
    destruct call; simpl;
      unfold searchPages, getPage, getParsedPage, getPageHistory,
        listCategories, getCategoryMembers, getRecentChanges, getPageLinks,
        getBacklinks;
      rewrite !apiRequest_settles;
      match goal with
      | [ |- context [Axios.get network (axios this) ?p] ] =>
          destruct (Axios.get network (axios this) p)
      end; reflexivity.
Qed.

(** X8.  The four operations with optional filters make one GET with
    exactly these parameters: a namespace is sent whenever it is given,
    the main namespace 0 included; a type or a prefix is sent only when
    it is given and not the empty string.  Each returns the list of the
    reply, empty when the reply has none, and fails as the request
    fails. *)
Theorem optional_filters_sent
    (text : string) (limit namespace : option Z) (filter : option string) :
  let number (key : string) (value : option Z) : Params :=
    match value with
    | Some n => [(key, PNum n)]
    | None => []
    end in
  let nonEmpty (key : string) (value : option string) : Params :=
    match value with
    | Some (String c rest) => [(key, PStr (String c rest))]
    | _ => []
    end in
  let atMost (default : Z) : ParamValue :=
    PNum match limit with Some n => n | None => default end in
  let settle {A : Type} (request : Params)
      (result : Api.Query -> option (list A)) : Result (list A) :=
    match Axios.get net (axios this)
            (("format", PStr "json") :: ("formatversion", PNum 2) :: request)
    with
    | Fulfilled data =>
        Ok match Api.query data with
           | Some q => match result q with Some l => l | None => [] end
           | None => []
           end
    | RejectedAxios err =>
        Throw (Error ("MediaWiki API error: "
                      ++ optOr (errorInfo err) (message err)))
    | RejectedOther e => Throw e
    end in
  searchPages net this text limit namespace
  = settle ([("action", PStr "query"); ("list", PStr "search");
             ("srsearch", PStr text); ("srlimit", atMost 10);
             ("srprop", PStr "snippet|timestamp|wordcount|size")]
            ++ number "srnamespace" namespace)%list
      Api.search
  /\ listCategories net this filter limit
     = settle ([("action", PStr "query"); ("list", PStr "allcategories");
                ("aclimit", atMost 20); ("acprop", PStr "size")]
               ++ nonEmpty "acprefix" filter)%list
         Api.allcategories
  /\ getCategoryMembers net this text limit filter
     = settle ([("action", PStr "query"); ("list", PStr "categorymembers");
                ("cmtitle",
                 PStr (if startsWith "Category:" text then text
                       else "Category:" ++ text));
                ("cmlimit", atMost 50);
                ("cmprop", PStr "ids|title|timestamp")]
               ++ nonEmpty "cmtype" filter)%list
         Api.categorymembers
  /\ getRecentChanges net this limit namespace filter
     = settle ([("action", PStr "query"); ("list", PStr "recentchanges");
                ("rclimit", atMost 20);
                ("rcprop",
                 PStr "title|ids|sizes|flags|user|timestamp|comment")]
               ++ number "rcnamespace" namespace
               ++ nonEmpty "rctype" filter)%list
         Api.recentchanges
  /\ number "srnamespace" (Some 0) = [("srnamespace", PNum 0)]
  /\ nonEmpty "rctype" (Some "") = []
  /\ nonEmpty "rctype" None = [].
Proof.
  intros number nonEmpty atMost settle.
  assert (T : forall (A : Type) (params request : Params)
                (result : Api.Query -> option (list A)),
            requestParams params
            = ("format", PStr "json") :: ("formatversion", PNum 2) :: request ->
            (data <- apiRequest net this params ;;
             Ok (orEmpty (chain (Api.query data) result)))
            = settle A request result).
  { intros A params request result E.
    rewrite apiRequest_settles, E. unfold settle.
    destruct (Axios.get net (axios this) _) as [data|err|e]; try reflexivity.
    simpl. destruct (Api.query data) as [q|]; [|reflexivity].
    simpl. destruct (result q); reflexivity. }
  split; [|split; [|split; [|split; [|repeat split]]]].
  - apply T. destruct limit, namespace; reflexivity.
  - apply T. destruct limit, filter as [[|c f]|]; reflexivity.
  - apply T. unfold getCategoryMembersParams, categoryTitle.
    destruct limit, filter as [[|c f]|]; reflexivity.
  - apply T. destruct limit, namespace, filter as [[|c f]|]; reflexivity.
Qed.

End MoreClientFacts.

(** ** The seven tools *)

Section MoreToolFacts.

Import Axios MediaWikiClient Tools Tool.

Variable host : Date.Host.
Variable client : MediaWikiClient.t.

Ltac unfold_tools :=
  unfold invoke, search_pages, get_page, get_page_history, list_categories,
    get_category_members, get_recent_changes, get_page_links,
    searchPages, getPage, getParsedPage, getPageHistory, listCategories,
    getCategoryMembers, getRecentChanges, getPageLinks, getBacklinks.

(** X9.  No handler catches a failure of the client: when the first
    request of a tool fails in the HTTP layer, the tool invocation fails
    with the client's error, [MediaWiki API error: ] and the description,
    and returns no text. *)
Theorem tools_propagate_failure
    (net : Axios.Network) (call : Call) (err : AxiosError) :
  Axios.get net (axios client) (requestParams (firstRequest call))
  = RejectedAxios err ->
  invoke net host client call
  = Throw (Error ("MediaWiki API error: "
                  ++ optOr (errorInfo err) (message err))).
Proof.
  intros H.
  destruct call as [q l n | t h | t l | p l | c l ty | l n ty | t [[|]|] l];
    simpl in H; unfold_tools;
    rewrite (apiRequest_axios_error _ _ _ _ H); reflexivity.
Qed.

(** X10.  The result of a tool depends on the remote side only through
    the answers to its requests: one request per tool, and for
    [get_page] with [include_html] the parse request as well.  Without
    [include_html] the parse request plays no part, and [get_page_links]
    looks at the links or at the backlinks, never at both. *)
Theorem tools_depend_on_their_requests
    (net1 net2 : Axios.Network) (call : Call) :
  (forall params,
     In params (requestsOf call) ->
     Axios.get net1 (axios client) (requestParams params)
     = Axios.get net2 (axios client) (requestParams params)) ->
  invoke net1 host client call = invoke net2 host client call.
Proof.
  intros H.
  assert (H1 := H (firstRequest call) (or_introl eq_refl)).
  destruct call as [q l n | t h | t l | p l | c l ty | l n ty | t [[|]|] l];
    simpl in H1; unfold_tools; unfold apiRequest; try (now rewrite H1).
  rewrite H1.
  destruct (Axios.get net2 (axios client) (requestParams (getPageParams t)))
    as [data | e | e]; simpl; try reflexivity.
  destruct (firstPage data) as [page|]; [|reflexivity].
  destruct (Api.missing page) as [[|]|]; try reflexivity;
    (destruct h as [[|]|]; simpl; try reflexivity;
     now rewrite (H (getParsedPageParams t) (or_intror (or_introl eq_refl)))).
Qed.

(** X11.  When the reply to the first request of a tool reports
    nothing, the tool answers with its own fixed text as an ordinary
    result.  The text names the query, title or category as it was
    given; for [list_categories] it depends on whether a non-empty
    prefix was given, for [get_page_links] on the direction. *)
Theorem tools_nothing_found
    (net : Axios.Network) (call : Call) (data : Api.Response) :
  Axios.get net (axios client) (requestParams (firstRequest call))
  = Fulfilled data ->
  emptyReply data ->
  invoke net host client call
  = Ok (textResult
          match call with
          | SearchPages q _ _ => "No results found for " ++ dq ++ q ++ dq
          | GetPage t _ => "Page " ++ dq ++ t ++ dq ++ " not found"
          | GetPageHistory t _ =>
              "No revision history found for " ++ dq ++ t ++ dq
          | ListCategories (Some (String c p)) _ =>
              "No categories found starting with "
              ++ dq ++ String c p ++ dq
          | ListCategories _ _ => "No categories found"
          | GetCategoryMembers c _ _ =>
              "No members found in category " ++ dq ++ c ++ dq
          | GetRecentChanges _ _ _ => "No recent changes found"
          | GetPageLinks t (Some To) _ =>
              "No backlinks found to " ++ dq ++ t ++ dq
          | GetPageLinks t _ _ =>
              "No outgoing links found from " ++ dq ++ t ++ dq
          end).
Proof.
  intros Hget He.
  destruct (emptyReply_lists _ He) as (Hs & Hp & Ha & Hm & Hr & Hb & Ht).
  destruct call as [q l n | t h | t l | p l | c l ty | l n ty | t [[|]|] l];
    simpl in Hget; unfold_tools;
    rewrite (apiRequest_fulfilled _ _ _ _ Hget); simpl;
    rewrite ?Hs, ?Hp, ?Ha, ?Hm, ?Hr, ?Hb; try reflexivity.
  destruct p as [[|c p]|]; reflexivity.
Qed.

(** X12.  The request of each tool carries the limit the tool was
    given, as it is and without any clamping; when the limit is left out
    the request asks for 10 search results, 20 revisions, 20 categories,
    50 category members, 20 recent changes, 50 links or 50 backlinks, and
    [get_page] always asks for one revision.  It is that request which
    decides: when it fails, the tool invocation fails with its error. *)
Theorem tool_limits_pass_through
    (net : Axios.Network) (text : string) (limit namespace : option Z)
    (filter : option string) (html : option bool) :
  let atMost (default : Z) : ParamValue :=
    PNum match limit with Some n => n | None => default end in
  let number (key : string) (value : option Z) : Params :=
    match value with
    | Some n => [(key, PNum n)]
    | None => []
    end in
  let nonEmpty (key : string) (value : option string) : Params :=
    match value with
    | Some (String c rest) => [(key, PStr (String c rest))]
    | _ => []
    end in
  let decides (call : Call) (request : Params) : Prop :=
    forall e,
      Axios.get net (axios client)
        (("format", PStr "json") :: ("formatversion", PNum 2) :: request)
      = RejectedOther e ->
      invoke net host client call = Throw e in
  decides (SearchPages text limit namespace)
    ([("action", PStr "query"); ("list", PStr "search");
      ("srsearch", PStr text); ("srlimit", atMost 10);
      ("srprop", PStr "snippet|timestamp|wordcount|size")]
     ++ number "srnamespace" namespace)%list
  /\ decides (GetPageHistory text limit)
       [("action", PStr "query"); ("titles", PStr text);
        ("prop", PStr "revisions"); ("rvlimit", atMost 20);
        ("rvprop", PStr "ids|timestamp|user|comment|size|flags")]
  /\ decides (ListCategories filter limit)
       ([("action", PStr "query"); ("list", PStr "allcategories");
         ("aclimit", atMost 20); ("acprop", PStr "size")]
        ++ nonEmpty "acprefix" filter)%list
  /\ decides (GetCategoryMembers text limit filter)
       ([("action", PStr "query"); ("list", PStr "categorymembers");
         ("cmtitle",
          PStr (if startsWith "Category:" text then text
                else "Category:" ++ text));
         ("cmlimit", atMost 50);
         ("cmprop", PStr "ids|title|timestamp")]
        ++ nonEmpty "cmtype" filter)%list
  /\ decides (GetRecentChanges limit namespace filter)
       ([("action", PStr "query"); ("list", PStr "recentchanges");
         ("rclimit", atMost 20);
         ("rcprop", PStr "title|ids|sizes|flags|user|timestamp|comment")]
        ++ number "rcnamespace" namespace
        ++ nonEmpty "rctype" filter)%list
  /\ decides (GetPageLinks text None limit)
       [("action", PStr "query"); ("titles", PStr text);
        ("prop", PStr "links"); ("pllimit", atMost 50)]
  /\ decides (GetPageLinks text (Some From) limit)
       [("action", PStr "query"); ("titles", PStr text);
        ("prop", PStr "links"); ("pllimit", atMost 50)]
  /\ decides (GetPageLinks text (Some To) limit)
       [("action", PStr "query"); ("list", PStr "backlinks");
        ("bltitle", PStr text); ("bllimit", atMost 50)]
  /\ decides (GetPage text html)
       [("action", PStr "query"); ("titles", PStr text);
        ("prop", PStr "revisions|info|categories");
        ("rvprop", PStr "content|timestamp|user|comment");
        ("rvslots", PStr "main"); ("rvlimit", PNum 1)].
Proof.
  intros atMost number nonEmpty decides. unfold decides.
  destruct limit, namespace, filter as [[|c f]|];
    repeat split; intros e H; unfold_tools; unfold apiRequest;
    match type of H with
    | Axios.get _ _ ?p = _ =>
        match goal with
        | [ |- context [Axios.get net (axios client) ?q] ] => change q with p
        end
    end; rewrite H; reflexivity.
Qed.

End MoreToolFacts.

Section MoreRenderingFacts.

Import Axios MediaWikiClient Tools.

Variable net : Axios.Network.
Variable host : Date.Host.
Variable client : MediaWikiClient.t.

Lemma getPage_existing (title : string) (data : Api.Response)
    (q : Api.Query) (page : Api.Page) (rest : list Api.Page) :
  Axios.get net (axios client) (requestParams (getPageParams title))
  = Fulfilled data ->
  Api.query data = Some q ->
  Api.pages q = Some (page :: rest) ->
  Api.missing page <> Some true ->
  getPage net client title = Ok (Some (pageContent page)).
Proof.
  intros Hget Hq Hp Hm. unfold getPage.
  rewrite (apiRequest_fulfilled _ _ _ _ Hget). simpl.
  unfold firstPage. rewrite Hq. simpl. rewrite Hp.
  destruct (Api.missing page) as [[|]|]; congruence.
Qed.

(** X13.  For a page that exists, the text of [get_page] is the
    heading with the title and the address of the page, the metadata of
    the page reply and, after [## Content], the body.  Without
    [include_html] the body is the wikitext of the page reply.  With
    [include_html] heading and metadata still come from the page reply
    and the body is the text of the parse reply, empty when that reply
    has none; when the parse request fails, the invocation fails and no
    text is returned. *)
Theorem get_page_body_source
    (title : string) (data : Api.Response) (q : Api.Query)
    (page : Api.Page) (rest : list Api.Page) :
  Axios.get net (axios client) (requestParams (getPageParams title))
  = Fulfilled data ->
  Api.query data = Some q ->
  Api.pages q = Some (page :: rest) ->
  Api.missing page <> Some true ->
  let found := pageContent page in
  let shown (body : string) :=
    "# Page: " ++ PageContent.title found ++ nl
    ++ "URL: " ++ getPageUrl client (PageContent.title found) ++ nl ++ nl
    ++ "## Metadata" ++ nl
    ++ "- Page ID: " ++ numToString (PageContent.pageid found) ++ nl
    ++ "- Last Modified: "
    ++ formatTimestamp host (PageContent.timestamp found)
    ++ " by " ++ PageContent.user found ++ nl
    ++ "- Categories: "
    ++ match String.concat ", " (PageContent.categories found) with
       | "" => "None"
       | joined => joined
       end ++ nl
    ++ "- Size: " ++ numToString (PageContent.size found) ++ " bytes" ++ nl
    ++ "- Comment: "
    ++ match PageContent.comment found with
       | "" => "No comment"
       | comment => comment
       end ++ nl ++ nl
    ++ "## Content" ++ nl ++ nl ++ body in
  get_page net host client title None
  = Ok (textResult (shown (PageContent.content found)))
  /\ get_page net host client title (Some false)
     = Ok (textResult (shown (PageContent.content found)))
  /\ get_page net host client title (Some true)
     = match Axios.get net (axios client)
               (requestParams (getParsedPageParams title)) with
       | Fulfilled parsed =>
           Ok (textResult
                 (shown
                    match Api.parse parsed with
                    | Some {| Api.text := Some html |} => html
                    | _ => ""
                    end))
       | RejectedAxios err =>
           Throw (Error ("MediaWiki API error: "
                         ++ optOr (errorInfo err) (message err)))
       | RejectedOther e => Throw e
       end.
Proof.
  intros Hget Hq Hp Hm found shown.
  assert (G := getPage_existing _ _ _ _ _ Hget Hq Hp Hm).
  assert (T : forall body, pageText host client found body = shown body).
  { intros body. unfold pageText, shown, join, orElse.
    destruct (String.concat ", " (PageContent.categories found));
      destruct (PageContent.comment found); reflexivity. }
  unfold get_page. rewrite G. simpl.
  split; [now rewrite T|]. split; [now rewrite T|].
  unfold getParsedPage, apiRequest.
  destruct (Axios.get net (axios client)
              (requestParams (getParsedPageParams title)))
    as [parsed | err | e]; simpl; try reflexivity.
  rewrite T.
  destruct (Api.parse parsed) as [[[html|]]|]; simpl; try reflexivity.
  destruct html; reflexivity.
Qed.

(** X14.  For a page that exists but whose reply has no revision, no
    category and no length, and a host on which the empty string is not
    a date, [get_page] shows [Invalid Date] as the time of the last
    change, an empty user, [None] for the categories, a size of 0,
    [No comment] and an empty body. *)
Theorem get_page_of_bare_page
    (title : string) (data : Api.Response) (q : Api.Query)
    (page : Api.Page) (rest : list Api.Page) :
  Axios.get net (axios client) (requestParams (getPageParams title))
  = Fulfilled data ->
  Api.query data = Some q ->
  Api.pages q = Some (page :: rest) ->
  Api.missing page <> Some true ->
  Api.revisions page = None ->
  Api.categories page = None ->
  Api.length page = None ->
  Date.legacyParse host "" = None ->
  get_page net host client title None
  = Ok (textResult
          ("# Page: " ++ Api.page_title page ++ nl
           ++ "URL: " ++ getPageUrl client (Api.page_title page) ++ nl ++ nl
           ++ "## Metadata" ++ nl
           ++ "- Page ID: " ++ numToString (Api.pageid page) ++ nl
           ++ "- Last Modified: Invalid Date by " ++ nl
           ++ "- Categories: None" ++ nl
           ++ "- Size: 0 bytes" ++ nl
           ++ "- Comment: No comment" ++ nl ++ nl
           ++ "## Content" ++ nl ++ nl)).
Proof.
  intros Hget Hq Hp Hm Hr Hc Hl Hd.
  unfold get_page.
  rewrite (getPage_existing _ _ _ _ _ Hget Hq Hp Hm). simpl.
  unfold pageText, pageContent. rewrite Hr, Hc, Hl. simpl.
  unfold formatTimestamp, Date.parse. simpl. rewrite Hd.
  rewrite ?append_assoc. reflexivity.
Qed.

(** X15.  With a name that does not start with [Category:],
    [get_category_members] gives the same text for the bare name and for
    the prefixed name whenever the category has members, and the same
    failure when the request fails.  When there is no member the two
    texts differ: each repeats the name as it was given. *)
Theorem category_members_tool_normalises
    (foo : string) (limit : option Z) (type : option string) :
  startsWith "Category:" foo = false ->
  match getCategoryMembers net client foo (Some (defaultArg 50 limit)) type with
  | Ok [] =>
      get_category_members net host client foo limit type
      = Ok (textResult ("No members found in category " ++ dq ++ foo ++ dq))
      /\ get_category_members net host client ("Category:" ++ foo) limit type
         = Ok (textResult
                 ("No members found in category "
                  ++ dq ++ "Category:" ++ foo ++ dq))
  | Ok members =>
      get_category_members net host client foo limit type
      = get_category_members net host client ("Category:" ++ foo) limit type
      /\ get_category_members net host client foo limit type
         = Ok (textResult
                 ("# Category: Category:" ++ foo ++ nl
                  ++ "Total members: " ++ count members
                  ++ match type with
                     | Some (String c ty) => " (type: " ++ String c ty ++ ")"
                     | _ => ""
                     end ++ nl ++ nl
                  ++ "## Members" ++ nl ++ nl
                  ++ entriesFrom (memberEntry host client) 0 members))
  | Throw e =>
      get_category_members net host client foo limit type = Throw e
      /\ get_category_members net host client ("Category:" ++ foo) limit type
         = Throw e
  end.
Proof.
  intros H.
  assert (E : getCategoryMembers net client ("Category:" ++ foo)
                (Some (defaultArg 50 limit)) type
              = getCategoryMembers net client foo
                  (Some (defaultArg 50 limit)) type).
  { unfold getCategoryMembers, getCategoryMembersParams.
    now rewrite (categoryTitle_bare _ H), categoryTitle_prefixed. }
  unfold get_category_members, bind. rewrite E, H.
  destruct (getCategoryMembers net client foo (Some (defaultArg 50 limit)) type)
    as [[|m ms]|e]; try (split; reflexivity).
  split; [reflexivity|].
  cbv zeta beta iota. rewrite forEach_append.
  destruct type as [[|c ty]|]; rewrite !append_assoc; reflexivity.
Qed.

(** X16.  The texts of [list_categories] and [get_page_links] have one
    entry for every item of the reply, in the order of the reply and
    numbered from 1, after a heading (for the categories with the prefix,
    when a non-empty one was given; for the links with their number).
    The entry of a category shows its name, its member counts and its
    address; the entry of a link shows the title and its address. *)
Theorem tool_texts_list_every_item
    (title : string) (prefix : option string) (limit : option Z) :
  let categoryEntry (cat : Category.t) (index : nat) :=
    numToString (Z.of_nat index + 1) ++ ". **" ++ Category.category cat
    ++ "** (" ++ numToString (Category.size cat) ++ " total members)" ++ nl
    ++ "   URL: " ++ getPageUrl client ("Category:" ++ Category.category cat)
    ++ nl
    ++ "   Pages: " ++ numToString (Category.pages cat)
    ++ " | Files: " ++ numToString (Category.files cat)
    ++ " | Subcategories: " ++ numToString (Category.subcats cat)
    ++ nl ++ nl in
  let linkEntry (link : string) (index : nat) :=
    numToString (Z.of_nat index + 1) ++ ". **" ++ link ++ "**" ++ nl
    ++ "   URL: " ++ getPageUrl client link ++ nl ++ nl in
  list_categories net client prefix limit
  = match listCategories net client prefix (Some (defaultArg 20 limit)) with
    | Throw e => Throw e
    | Ok [] =>
        Ok (textResult
              match prefix with
              | Some (String c p) =>
                  "No categories found starting with "
                  ++ dq ++ String c p ++ dq
              | _ => "No categories found"
              end)
    | Ok categories =>
        Ok (textResult
              ("# Wiki Categories"
               ++ match prefix with
                  | Some (String c p) =>
                      " (prefix: " ++ dq ++ String c p ++ dq ++ ")"
                  | _ => ""
                  end ++ nl ++ nl
               ++ entriesFrom categoryEntry 0 categories))
    end
  /\ get_page_links net client title (Some From) limit
     = match getPageLinks net client title (Some (defaultArg 50 limit)) with
       | Throw e => Throw e
       | Ok [] =>
           Ok (textResult
                 ("No outgoing links found from " ++ dq ++ title ++ dq))
       | Ok links =>
           Ok (textResult
                 ("# Links from: " ++ title ++ nl ++ nl
                  ++ "Found " ++ numToString (Z.of_nat (List.length links))
                  ++ " outgoing links:" ++ nl ++ nl
                  ++ entriesFrom linkEntry 0 links))
       end
  /\ get_page_links net client title (Some To) limit
     = match getBacklinks net client title (Some (defaultArg 50 limit)) with
       | Throw e => Throw e
       | Ok [] =>
           Ok (textResult ("No backlinks found to " ++ dq ++ title ++ dq))
       | Ok links =>
           Ok (textResult
                 ("# Links to: " ++ title ++ nl ++ nl
                  ++ "Found " ++ numToString (Z.of_nat (List.length links))
                  ++ " backlinks:" ++ nl ++ nl
                  ++ entriesFrom linkEntry 0 links))
       end
  /\ (forall (entry : string -> nat -> string) a b,
        entriesFrom entry 0 [a; b] = entry a 0%nat ++ entry b 1%nat)
  /\ get_page_links MoreExamples.netLinks Examples.wiki "Main Page" None None
     = Ok (textResult
             ("# Links from: Main Page" ++ nl ++ nl
              ++ "Found 2 outgoing links:" ++ nl ++ nl
              ++ "1. **Help**" ++ nl
              ++ "   URL: https://wiki.example.com/index.php/Help" ++ nl ++ nl
              ++ "2. **About us**" ++ nl
              ++ "   URL: https://wiki.example.com/index.php/About_us"
              ++ nl ++ nl)).
Proof.
  intros categoryEntry linkEntry.
  split; [|split; [|split; [|split]]].
  - unfold list_categories, bind.
    destruct (listCategories net client prefix (Some (defaultArg 20 limit)))
      as [[|c cs]|e]; try reflexivity.
    + destruct prefix as [[|x p]|]; reflexivity.
    + rewrite forEach_append.
      destruct prefix as [[|x p]|]; now rewrite !append_assoc.
  - unfold get_page_links, bind. cbn [defaultArg]. cbv beta iota zeta.
    destruct (getPageLinks net client title (Some (defaultArg 50 limit)))
      as [[|l ls]|e]; try reflexivity.
    rewrite forEach_append. now rewrite !append_assoc.
  - unfold get_page_links, bind. cbn [defaultArg]. cbv beta iota zeta.
    destruct (getBacklinks net client title (Some (defaultArg 50 limit)))
      as [[|l ls]|e]; try reflexivity.
    rewrite forEach_append. now rewrite !append_assoc.
  - intros e a b. simpl. now rewrite append_nil_r.
  - vm_compute. reflexivity.
Qed.

Lemma history_deltas_from (before : list Revision.t) :
  forall (l : list Revision.t) (rev : Revision.t),
    sumZ (map (fun '(index, r) =>
                 historySizeDiff (before ++ rev :: l) r index)
              (combine (seq (List.length before) (S (List.length l)))
                       (rev :: l)))
    = Revision.size rev - Revision.size (last l rev).
Proof.
  intros l. revert before.
  induction l as [|next l IH]; intros before rev.
  - simpl. rewrite historySizeDiff_last. lia.
  - cbn [List.length seq combine map sumZ].
    rewrite historySizeDiff_inner.
    specialize (IH (before ++ [rev])%list next).
    rewrite <- List.app_assoc in IH. simpl in IH.
    rewrite List.length_app in IH. simpl in IH.
    replace (List.length before + 1)%nat with (S (List.length before)) in IH
      by lia.
    cbn [List.length seq combine map sumZ] in IH.
    rewrite IH.
    replace (last (next :: l) rev) with (last l next)
      by (clear; revert next; induction l as [|x l IHl]; intros next;
          [reflexivity | simpl; destruct l; [reflexivity | apply IHl]]).
    lia.
Qed.

(** X17.  The size deltas of one history text add up to the size of the
    newest revision of the reply less the size of its oldest one. *)
Theorem history_deltas_telescope
    (rev : Revision.t) (older : list Revision.t) :
  let revisions := rev :: older in
  sumZ (map (fun '(index, r) => historySizeDiff revisions r index)
            (combine (seq 0 (List.length revisions)) revisions))
  = Revision.size rev - Revision.size (last older rev).
Proof. exact (history_deltas_from [] older rev). Qed.

End MoreRenderingFacts.

(** ** Start-up *)

Section StartupFacts.

Import MediaWikiClient Startup.

(** X18.  Without [MEDIAWIKI_BASE_URL], or with an empty one, the
    process exits with code 1 and creates no client.  With a non-empty
    one it serves with a client whose base address is that value less
    one trailing slash, and whose token is [MEDIAWIKI_API_TOKEN]. *)
Theorem startup_requires_base_url (env : Env) :
  (env "MEDIAWIKI_BASE_URL" = None \/ env "MEDIAWIKI_BASE_URL" = Some "" ->
   start env
   = Exit 1 "Error: MEDIAWIKI_BASE_URL environment variable is required")
  /\ (forall base,
        env "MEDIAWIKI_BASE_URL" = Some base -> base <> "" ->
        start env = Serve (MediaWikiClient.new (loadConfig env))
        /\ MediaWikiConfig.baseUrl (loadConfig env) = base
        /\ MediaWikiConfig.apiToken (loadConfig env)
           = env "MEDIAWIKI_API_TOKEN"
        /\ baseUrl (MediaWikiClient.new (loadConfig env))
           = stripTrailingSlash base).
Proof.
  split.
  - intros [H | H]; unfold start, loadConfig; simpl; now rewrite H.
  - intros base H Hne. unfold start, loadConfig. simpl. rewrite H.
    destruct base; [contradiction|]. repeat split.
Qed.

End StartupFacts.

(** ** Worked examples of the further properties *)

Section MoreWorkedExamples.

Import Axios MediaWikiClient Examples MoreExamples.

Lemma getPageUrl_same_iff_variant_example :
  getPageUrl wiki "Main Page" = getPageUrl wiki "Main_Page"
  /\ SpaceVariant "Main Page" "Main_Page".
Proof.
  destruct (getPageUrl_same_iff_variant wiki "Main Page" "Main_Page")
    as ((H & _) & _).
  split; [reflexivity | apply H; reflexivity].
Defined.

Lemma client_credentials_example :
  Axios.headers
    (axios (MediaWikiClient.new
              {| MediaWikiConfig.baseUrl := "https://wiki.example.com";
                 MediaWikiConfig.username := Some "alice";
                 MediaWikiConfig.password := Some "secret";
                 MediaWikiConfig.apiToken := Some "tok" |}))
  = [("User-Agent", "MediaWiki-MCP/1.0.0"); ("Accept", "application/json");
     ("Authorization", "Bearer tok")].
Proof.
  destruct (client_credentials "https://wiki.example.com"
              (Some "alice") (Some "secret") (Some "tok")) as (_ & H & _).
  apply (H "tok"); [reflexivity | discriminate].
Defined.

Lemma empty_reply_example :
  Operation.run netNothing wiki (Operation.GetPageLinks "Main Page" None)
  = Ok (Operation.Titles []).
Proof.
  apply (empty_reply_gives_defaults netNothing wiki
           (Operation.GetPageLinks "Main Page" None) nothing).
  - reflexivity.
  - split; left; reflexivity.
Defined.

Lemma every_request_example :
  Operation.run netServerError wiki (Operation.GetParsedPage "Main Page")
  = Throw (Error "MediaWiki API error: Database error").
Proof.
  destruct (every_request_is_json_v2 wiki (Operation.GetParsedPage "Main Page"))
    as (rest & _ & H).
  rewrite (H netServerError). reflexivity.
Defined.

Lemma tool_limits_example :
  Tool.invoke netOffline hostUtc wiki (Tool.SearchPages "x" (Some 500) None)
  = Throw (Foreign "offline").
Proof.
  destruct (tool_limits_pass_through hostUtc wiki netOffline "x" (Some 500)
              None None None) as (H & _).
  apply H. reflexivity.
Defined.

Lemma tools_propagate_failure_example :
  Tool.invoke netServerError hostUtc wiki (Tool.SearchPages "x" None None)
  = Throw (Error "MediaWiki API error: Database error").
Proof.
  apply (tools_propagate_failure hostUtc wiki netServerError
           (Tool.SearchPages "x" None None) serverError).
  reflexivity.
Defined.

Lemma tools_depend_on_their_requests_example :
  Tool.invoke netMissing hostUtc wiki (Tool.GetPage "No Such Page" None)
  = Tool.invoke netMissingNoParse hostUtc wiki
      (Tool.GetPage "No Such Page" None).
Proof.
  apply (tools_depend_on_their_requests hostUtc wiki
           netMissing netMissingNoParse (Tool.GetPage "No Such Page" None)).
  intros params [<- | []]. reflexivity.
Defined.

Lemma tools_nothing_found_example :
  Tool.invoke netNothing hostUtc wiki
    (Tool.ListCategories (Some "Phys") None)
  = Ok (Tools.textResult
          ("No categories found starting with " ++ dq ++ "Phys" ++ dq)).
Proof.
  apply (tools_nothing_found hostUtc wiki netNothing
           (Tool.ListCategories (Some "Phys") None) nothing).
  - reflexivity.
  - split; left; reflexivity.
Defined.

Lemma get_page_body_source_example :
  Tools.get_page netBare hostUtc wiki "Stub" (Some true)
  = Ok (Tools.textResult
          ("# Page: Stub" ++ nl
           ++ "URL: https://wiki.example.com/index.php/Stub" ++ nl ++ nl
           ++ "## Metadata" ++ nl
           ++ "- Page ID: 7" ++ nl
           ++ "- Last Modified: Invalid Date by " ++ nl
           ++ "- Categories: None" ++ nl
           ++ "- Size: 0 bytes" ++ nl
           ++ "- Comment: No comment" ++ nl ++ nl
           ++ "## Content" ++ nl ++ nl)).
Proof.
  destruct (get_page_body_source netBare hostUtc wiki "Stub"
              (reply (pagesQuery [barePage])) (pagesQuery [barePage])
              barePage [] eq_refl eq_refl eq_refl) as (_ & _ & H).
  - discriminate.
  - exact H.
Defined.

Lemma get_page_of_bare_page_example :
  Tools.get_page netBare hostUtc wiki "Stub" None
  = Ok (Tools.textResult
          ("# Page: Stub" ++ nl
           ++ "URL: https://wiki.example.com/index.php/Stub" ++ nl ++ nl
           ++ "## Metadata" ++ nl
           ++ "- Page ID: 7" ++ nl
           ++ "- Last Modified: Invalid Date by " ++ nl
           ++ "- Categories: None" ++ nl
           ++ "- Size: 0 bytes" ++ nl
           ++ "- Comment: No comment" ++ nl ++ nl
           ++ "## Content" ++ nl ++ nl)).
Proof.
  apply (get_page_of_bare_page netBare hostUtc wiki "Stub"
           (reply (pagesQuery [barePage])) (pagesQuery [barePage])
           barePage []); try reflexivity.
  discriminate.
Defined.

Lemma category_members_tool_example :
  Tools.get_category_members netMembers hostUtc wiki "Foo" None None
  = Tools.get_category_members netMembers hostUtc wiki "Category:Foo"
      None None.
Proof.
  exact (proj1 (category_members_tool_normalises netMembers hostUtc wiki
                  "Foo" None None eq_refl)).
Defined.

Lemma startup_example :
  Startup.start MoreExamples.env
  = Startup.Serve (MediaWikiClient.new (Startup.loadConfig MoreExamples.env))
  /\ baseUrl (MediaWikiClient.new (Startup.loadConfig MoreExamples.env))
     = "https://wiki.example.com"
  /\ Startup.start (fun _ => None)
     = Startup.Exit 1
         "Error: MEDIAWIKI_BASE_URL environment variable is required".
Proof.
  destruct (startup_requires_base_url MoreExamples.env) as (_ & H).
  destruct (H "https://wiki.example.com/" eq_refl) as (Hs & _ & _ & Hb);
    [discriminate|].
  split; [exact Hs|]. split; [exact Hb|].
  apply (proj1 (startup_requires_base_url (fun _ => None))).
  left. reflexivity.
Defined.

End MoreWorkedExamples.

(** ** Replies that carry data *)

Section DataFacts.

Import Axios MediaWikiClient.

Variable net : Axios.Network.
Variable this : MediaWikiClient.t.

Lemma encodeURIComponent_app (a b : string) :
  encodeURIComponent (a ++ b) = encodeURIComponent a ++ encodeURIComponent b.
Proof.
  induction a as [|c a IH]; [reflexivity|].
  change (String c a ++ b) with (String c (a ++ b)).
  cbn [encodeURIComponent]. rewrite IH.
  destruct (uriUnreserved c); [reflexivity|].
  now rewrite append_assoc.
Qed.

Lemma replaceSpaces_app (a b : string) :
  replaceSpaces (a ++ b) = replaceSpaces a ++ replaceSpaces b.
Proof. induction a as [|c a IH]; simpl; [reflexivity | now rewrite IH]. Qed.

(** X19.  The address of a title that continues another one continues
    the address of that one; in particular the address of the category
    [name], as [list_categories] shows it, is the base address followed
    by [/index.php/Category%3A] and the encoded name. *)
Theorem getPageUrl_concatenation (a b name : string) :
  getPageUrl this (a ++ b)
  = getPageUrl this a ++ encodeURIComponent (replaceSpaces b)
  /\ getPageUrl this ("Category:" ++ name)
     = baseUrl this ++ "/index.php/Category%3A"
       ++ encodeURIComponent (replaceSpaces name)
  /\ forall cat index,
       exists before after,
         Tools.categoryEntry this cat index
         = before ++ "   URL: " ++ baseUrl this ++ "/index.php/Category%3A"
           ++ encodeURIComponent (replaceSpaces (Category.category cat))
           ++ nl ++ after.
Proof.
  assert (C : forall n, getPageUrl this ("Category:" ++ n)
                        = baseUrl this ++ "/index.php/Category%3A"
                          ++ encodeURIComponent (replaceSpaces n)).
  { intros n. unfold getPageUrl.
    rewrite replaceSpaces_app, encodeURIComponent_app.
    reflexivity. }
  split; [|split; [apply C|]].
  - unfold getPageUrl.
    rewrite replaceSpaces_app, encodeURIComponent_app.
    now rewrite !append_assoc.
  - intros cat index. unfold Tools.categoryEntry. rewrite C.
    exists (Tools.ordinal index ++ ". **" ++ Category.category cat ++ "** ("
            ++ numToString (Category.size cat) ++ " total members)" ++ nl).
    eexists. rewrite !append_assoc. reflexivity.
Qed.

(** X20.  For a page that exists and has revisions, [getPage] takes the
    body, the time stamp, the user and the comment from the first
    revision of the first page of the reply, and nothing from the later
    revisions or pages; the categories are the titles of the reply in
    their order, and the size is the length of the reply. *)
Theorem getPage_reads_first_revision
    (title : string) (data : Api.Response) (q : Api.Query)
    (page : Api.Page) (rest : list Api.Page)
    (rev : Revision.t) (revs : list Revision.t)
    (body : string) (cats : list Api.TitleRef) (len : Z) :
  Axios.get net (axios this) (requestParams (getPageParams title))
  = Fulfilled data ->
  Api.query data = Some q ->
  Api.pages q = Some (page :: rest) ->
  Api.missing page <> Some true ->
  Api.revisions page = Some (rev :: revs) ->
  Revision.slots rev
  = Some {| Slots.main := Some {| Slots.content := Some body |} |} ->
  Api.categories page = Some cats ->
  Api.length page = Some len ->
  getPage net this title
  = Ok (Some {| PageContent.pageid := Api.pageid page;
                PageContent.title := Api.page_title page;
                PageContent.content := body;
                PageContent.timestamp := Revision.timestamp rev;
                PageContent.user := Revision.user rev;
                PageContent.comment := Revision.comment rev;
                PageContent.categories := map Api.title cats;
                PageContent.size := len |}).
Proof.
  intros Hget Hq Hp Hm Hr Hs Hc Hl. unfold getPage.
  rewrite (apiRequest_fulfilled _ _ _ _ Hget). simpl.
  unfold firstPage. rewrite Hq. simpl. rewrite Hp.
  assert (E : pageContent page
              = {| PageContent.pageid := Api.pageid page;
                   PageContent.title := Api.page_title page;
                   PageContent.content := body;
                   PageContent.timestamp := Revision.timestamp rev;
                   PageContent.user := Revision.user rev;
                   PageContent.comment := Revision.comment rev;
                   PageContent.categories := map Api.title cats;
                   PageContent.size := len |}).
  { unfold pageContent. rewrite Hr, Hc, Hl. simpl. rewrite Hs. simpl.
    f_equal.
    - now destruct body.
    - now destruct (Revision.timestamp rev).
    - now destruct (Revision.user rev).
    - now destruct (Revision.comment rev). }
  rewrite <- E. destruct (Api.missing page) as [[|]|]; congruence.
Qed.

(** X21.  The list operations return the items of the reply as they
    are, all of them and in their order, whatever the limit that was
    asked for: the client neither filters nor truncates.  For the
    history and the links it is the list of the first page of the
    reply. *)
Theorem lists_returned_unchanged
    (text : string) (limit namespace : option Z) (filter : option string)
    (data : Api.Response) (q : Api.Query) :
  Api.query data = Some q ->
  (forall l, Api.search q = Some l ->
     Axios.get net (axios this)
       (requestParams (searchPagesParams text limit namespace))
     = Fulfilled data ->
     searchPages net this text limit namespace = Ok l)
  /\ (forall l, Api.allcategories q = Some l ->
        Axios.get net (axios this)
          (requestParams (listCategoriesParams filter limit))
        = Fulfilled data ->
        listCategories net this filter limit = Ok l)
  /\ (forall l, Api.categorymembers q = Some l ->
        Axios.get net (axios this)
          (requestParams (getCategoryMembersParams text limit filter))
        = Fulfilled data ->
        getCategoryMembers net this text limit filter = Ok l)
  /\ (forall l, Api.recentchanges q = Some l ->
        Axios.get net (axios this)
          (requestParams (getRecentChangesParams limit namespace filter))
        = Fulfilled data ->
        getRecentChanges net this limit namespace filter = Ok l)
  /\ (forall l, Api.backlinks q = Some l ->
        Axios.get net (axios this)
          (requestParams (getBacklinksParams text limit))
        = Fulfilled data ->
        getBacklinks net this text limit = Ok (map Api.title l))
  /\ (forall page rest l,
        Api.pages q = Some (page :: rest) ->
        Api.revisions page = Some l ->
        Axios.get net (axios this)
          (requestParams (getPageHistoryParams text limit))
        = Fulfilled data ->
        getPageHistory net this text limit = Ok l)
  /\ (forall page rest l,
        Api.pages q = Some (page :: rest) ->
        Api.links page = Some l ->
        Axios.get net (axios this)
          (requestParams (getPageLinksParams text limit))
        = Fulfilled data ->
        getPageLinks net this text limit = Ok (map Api.title l)).
Proof.
  intros Hq.
  repeat split; intros;
    unfold searchPages, listCategories, getCategoryMembers, getRecentChanges,
      getBacklinks, getPageHistory, getPageLinks, firstPage;
    match goal with
    | [ H : Axios.get _ _ _ = Fulfilled _ |- _ ] =>
        rewrite (apiRequest_fulfilled _ _ _ _ H)
    end; simpl; rewrite Hq; simpl;
    repeat match goal with
           | [ H : _ = Some _ |- _ ] => rewrite H; simpl
           end; reflexivity.
Qed.

End DataFacts.

Section DataExamples.

Import Axios MediaWikiClient Examples MoreExamples.

Lemma getPage_reads_first_revision_example :
  let rev :=
    {| Revision.revid := 9; Revision.parentid := 8;
       Revision.timestamp := "2024-01-05T15:07:00Z";
       Revision.user := "Alice"; Revision.comment := "typo";
       Revision.size := 11; Revision.minor := None;
       Revision.slots :=
         Some {| Slots.main :=
                   Some {| Slots.content := Some "Hello world" |} |} |} in
  let page :=
    {| Api.pageid := 1; Api.page_title := "Main Page";
       Api.missing := None; Api.length := Some 11;
       Api.revisions := Some [rev];
       Api.categories := Some [ {| Api.title := "Category:Demo" |} ];
       Api.links := None |} in
  getPage (fun _ _ _ => Fulfilled (reply (pagesQuery [page]))) wiki "Main Page"
  = Ok (Some {| PageContent.pageid := 1;
                PageContent.title := "Main Page";
                PageContent.content := "Hello world";
                PageContent.timestamp := "2024-01-05T15:07:00Z";
                PageContent.user := "Alice";
                PageContent.comment := "typo";
                PageContent.categories := ["Category:Demo"];
                PageContent.size := 11 |}).
Proof.
  intros rev page.
  apply (getPage_reads_first_revision
           (fun _ _ _ => Fulfilled (reply (pagesQuery [page]))) wiki
           "Main Page" (reply (pagesQuery [page])) (pagesQuery [page])
           page [] rev [] "Hello world"
           [ {| Api.title := "Category:Demo" |} ] 11);
    try reflexivity.
  discriminate.
Defined.

Lemma lists_returned_unchanged_example :
  getCategoryMembers netMembers wiki "Foo" (Some 0) None = Ok [member].
Proof.
  destruct (lists_returned_unchanged netMembers wiki "Foo" (Some 0) None None
              (reply {| Api.search := None; Api.pages := None;
                        Api.allcategories := None;
                        Api.categorymembers := Some [member];
                        Api.recentchanges := None; Api.backlinks := None |})
              {| Api.search := None; Api.pages := None;
                 Api.allcategories := None;
                 Api.categorymembers := Some [member];
                 Api.recentchanges := None; Api.backlinks := None |}
              eq_refl)
    as (_ & _ & H & _).
  apply H; reflexivity.
Defined.

End DataExamples.
